(** * BayesFlow: training loops and diagnostics

    A shallow embedding of [deep_bayes/training.py] (the online and offline
    training loops) and of [bayesflow/diagnostics.py] (recovery plot,
    simulation-based-calibration histogram, calibration curves), with the
    properties the specification states about them.

    Conventions of the embedding.
    - A Python call that may raise returns a [result]; the exception is a
      value of [exn].
    - Floating-point scalars are idealised as rationals ([Q]), without
      rounding or infinities; [nan] is kept where the code meets it
      ([pyfloat]): the [np.mean] of an empty slice in the training loops,
      and the entries of the arrays the diagnostics are given.
    - Python [int]s are [Z]; dictionaries are [gmap string _].
    - TensorFlow, the optimizer and the data generator are collaborators
      outside the repository's two source files: the training loops are
      parameterised by them, and the arguments they hand to them are
      recorded so that they can be spoken about. Of matplotlib and
      scikit-learn the diagnostics keep what was drawn and the exceptions
      the calls raise on arguments they reject. *)

From Stdlib Require Import ZArith QArith Qminmax Lia List Reals Lra.
From stdpp Require Import base option list gmap strings pretty.

Local Open Scope Z_scope.

(** ** Python exceptions and results *)

Inductive exn : Type :=
  | KeyError (key : string)
  | IndexError
  | TypeError
  | ValueError
  | ZeroDivisionError
  | AttributeError
  | External (what : string).

Inductive result (A : Type) : Type :=
  | Ok (a : A)
  | Raise (e : exn).
Arguments Ok {A} a.
Arguments Raise {A} e.

#[global] Instance result_ret : MRet result := fun _ a => Ok a.
#[global] Instance result_bind : MBind result := fun _ _ f m =>
  match m with
  | Ok a => f a
  | Raise e => Raise e
  end.
#[global] Instance result_fmap : FMap result := fun _ _ f m =>
  match m with
  | Ok a => Ok (f a)
  | Raise e => Raise e
  end.

Definition returns {A} (m : result A) : Prop := exists a, m = Ok a.

(** [d[k]] on a dictionary. *)
Definition getitem {V} (d : gmap string V) (k : string) : result V :=
  match d !! k with
  | Some v => Ok v
  | None => Raise (KeyError k)
  end.

(** [l[i]] on a tuple or list, for the non-negative indices the code uses. *)
Definition index {V} (l : list V) (i : nat) : result V :=
  match l !! i with
  | Some v => Ok v
  | None => Raise IndexError
  end.

(** [for x in xs: s = body(x, s)], stopping at the first exception. *)
Fixpoint for_each {A S} (body : A -> S -> result S) (xs : list A) (s : S)
  : result S :=
  match xs with
  | [] => Ok s
  | x :: xs' =>
      match body x s with
      | Ok s' => for_each body xs' s'
      | Raise e => Raise e
      end
  end.

(** A loop that draws one panel per item: [for x in xs: <draw f(x)>]. *)
Definition draw_each {A B} (f : A -> result B) (xs : list A)
  : result (list B) :=
  for_each (fun x panels => panel ← f x; Ok (panels ++ [panel])) xs [].

(** [range(lo, hi)]. *)
Definition range (lo hi : Z) : list Z :=
  map (fun k => lo + Z.of_nat k) (seq 0 (Z.to_nat (hi - lo))).

(** [enumerate(xs)]. *)
Definition enumerate {A} (xs : list A) : list (Z * A) :=
  imap (fun i x => (Z.of_nat i, x)) xs.

(** [l[start:]] for a Python list: a negative [start] counts from the end
    and is clamped at the front, a positive one is clamped at the end. *)
Definition slice_from {A} (l : list A) (start : Z) : list A :=
  let len := Z.of_nat (length l) in
  let start' := if start <? 0 then Z.max (len + start) 0 else Z.min start len in
  drop (Z.to_nat start') l.

(** The last [k] entries of a list (all of them when it has fewer). *)
Definition lastn {A} (k : nat) (l : list A) : list A :=
  drop (length l - k)%nat l.

(** ** Scalars *)

Inductive pyfloat : Type :=
  | Finite (q : Q)
  | NaN.

Definition Qsum (l : list Q) : Q := fold_right Qplus 0%Q l.

(** The arithmetic mean of a non-empty list. *)
Definition arithmetic_mean (l : list Q) : Q :=
  (Qsum l / inject_Z (Z.of_nat (length l)))%Q.

(** [np.mean(l)] of a list of scalars: [nan] on the empty list. The losses
    of the training loops are numbers here; a loss that is itself [nan] is
    outside the model. *)
Definition np_mean (l : list Q) : pyfloat :=
  match l with
  | [] => NaN
  | _ :: _ => Finite (arithmetic_mean l)
  end.

(** [tf.add_n(inputs)]: the sum of a non-empty list, accumulated left to
    right; TensorFlow rejects the empty list. *)
Definition add_n (inputs : list Q) : result Q :=
  match inputs with
  | [] => Raise ValueError
  | x :: xs => Ok (fold_left Qplus xs x)
  end.

(** ** deep_bayes/training.py *)

Module Training.

(** What the loops hand to the progress bar. The format string of
    [set_postfix_str] is not modelled: the call is recorded with the values
    that are formatted into it. *)
Inductive pbar_call : Type :=
  | SetPostfixOnline (it : Z) (loss : Q) (running_loss : pyfloat) (w_decay : Q)
  | SetPostfixOffline (bi : Z) (loss w_decay : Q)
  | Update (n : Z).

(** The record of one backpropagation step: what [model.losses] was, what
    was differentiated, what came out, and what the optimizer was given. *)
Record backprop (Grads : Type) : Type := {
  declared : list Q;
  differentiated : Q;
  raw_gradients : Grads;
  applied_gradients : Grads
}.
Arguments declared {Grads} b.
Arguments differentiated {Grads} b.
Arguments raw_gradients {Grads} b.
Arguments applied_gradients {Grads} b.

(** The state of a loop: the environment, the local [losses] dictionary,
    the caller's progress bar with the calls made on it ([None] when no
    progress bar was passed), and the backpropagation steps so far. *)
Record loop_state (Env Grads : Type) : Type := {
  env : Env;
  losses : gmap string (list Q);
  p_bar : option (list pbar_call);
  steps : list (backprop Grads)
}.
Arguments env {Env Grads} l.
Arguments losses {Env Grads} l.
Arguments p_bar {Env Grads} l.
Arguments steps {Env Grads} l.

(** The collaborators of a run. [Env] is everything they may read or
    change: the model's variables, the optimizer and [global_step], the
    gradient tape, the generator's random state. *)
Class Collaborators (Env Tensor Grads : Type) : Type := {
  (** [data_gen(batch_size)] *)
  data_gen : Z -> Env -> result (gmap string Tensor * Env);
  (** the forward pass: [model] called on the unpacked inputs *)
  model : list Tensor -> Env -> result (gmap string Tensor * Env);
  (** [loss_fun] called on the unpacked loss arguments *)
  loss_fun : list Tensor -> result Q;
  (** [model.losses] *)
  model_losses : Env -> list Q;
  (** [tape.gradient(total_loss, model.trainable_variables)] *)
  tape_gradient : Q -> Env -> result Grads;
  (** [clip_gradients(gradients, clip_value, clip_method)], from [.utils] *)
  clip_gradients : Grads -> Q -> string -> result Grads;
  (** [apply_gradients(optimizer, gradients, model.trainable_variables,
      global_step)], from [.utils] *)
  apply_gradients : Grads -> Env -> result Env
}.

Section Loops.

Context `{Collaborators Env Tensor Grads}.

(** [losses[key].append(v)] *)
Definition append (key : string) (v : Q) (d : gmap string (list Q))
  : result (gmap string (list Q)) :=
  l ← getitem d key;
  Ok (<[key := l ++ [v]]> d).

(** [w_decay = tf.add_n(model.losses) if model.losses else 0.] *)
Definition weight_decay (e : Env) : result Q :=
  match model_losses e with
  | [] => Ok 0%Q
  | _ :: _ => add_n (model_losses e)
  end.

(** Lines 74-81 and 148-155: regularization, gradients, clipping, update. *)
Definition backprop_step (clip_value : option Q) (clip_method : string)
    (loss : Q) (e : Env) : result (Q * backprop Grads * Env) :=
  w_decay ← weight_decay e;
  let total_loss := (loss + w_decay)%Q in
  gradients ← tape_gradient total_loss e;
  gradients' ← match clip_value with
               | Some c => clip_gradients gradients c clip_method
               | None => Ok gradients
               end;
  e' ← apply_gradients gradients' e;
  Ok (w_decay,
      {| declared := model_losses e; differentiated := total_loss;
         raw_gradients := gradients; applied_gradients := gradients' |},
      e').

(** The body of the loop of [train_online] (lines 54-92). *)
Definition online_iteration (batch_size : Z) (clip_value : option Q)
    (clip_method : string) (n_smooth : Z) (method : string)
    (it : Z) (s : loop_state Env Grads) : result (loop_state Env Grads) :=
  '(batch, e1) ← data_gen batch_size (env s);
  inputs ← (if String.eqb method "flow"
            then theta ← getitem batch "theta";
                 x ← getitem batch "x";
                 Ok [theta; x]
            else x ← getitem batch "x";
                 Ok [x]);
  '(outputs, e2) ← model inputs e1;
  loss_args ← (if String.eqb method "flow"
               then z ← getitem outputs "z";
                    log_det_J ← getitem outputs "log_det_J";
                    Ok [z; log_det_J]
               else m ← getitem batch "m";
                    alpha ← getitem outputs "alpha";
                    alpha0 ← getitem outputs "alpha0";
                    m_probs ← getitem outputs "m_probs";
                    Ok [m; alpha; alpha0; m_probs]);
  loss ← loss_fun loss_args;
  '(w_decay, bp, e3) ← backprop_step clip_value clip_method loss e2;
  losses1 ← append "regularization" w_decay (losses s);
  losses2 ← append "loss" loss losses1;
  history ← getitem losses2 "loss";
  let running_loss :=
    if it <? n_smooth then Finite loss
    else np_mean (slice_from history (- n_smooth)) in
  let p_bar' :=
    match p_bar s with
    | Some calls =>
        Some (calls ++ [SetPostfixOnline it loss running_loss w_decay;
                        Update 1])
    | None => None
    end in
  Ok {| env := e3; losses := losses2; p_bar := p_bar';
        steps := steps s ++ [bp] |}.

Definition initial_losses : gmap string (list Q) :=
  <["loss" := []]> (<["regularization" := []]> ∅).

Definition initial_state (e : Env) (p_bar : option (list pbar_call))
  : loop_state Env Grads :=
  {| env := e; losses := initial_losses; p_bar := p_bar; steps := [] |}.

Definition train_online (iterations batch_size : Z)
    (p_bar : option (list pbar_call)) (clip_value : option Q)
    (clip_method : string) (n_smooth : Z) (method : string) (e : Env)
  : result (loop_state Env Grads) :=
  for_each
    (online_iteration batch_size clip_value clip_method n_smooth method)
    (range 1 (iterations + 1))
    (initial_state e p_bar).

(** The body of the loop of [train_offline] (lines 130-165). *)
Definition offline_iteration (clip_value : option Q) (clip_method : string)
    (method : string) (item : Z * list Tensor) (s : loop_state Env Grads)
  : result (loop_state Env Grads) :=
  let '(bi, batch) := item in
  inputs ← (if String.eqb method "flow"
            then b0 ← index batch 0;
                 b1 ← index batch 1;
                 Ok [b0; b1]
            else b0 ← index batch 0;
                 Ok [b0]);
  '(outputs, e2) ← model inputs (env s);
  loss_args ← (if String.eqb method "flow"
               then z ← getitem outputs "z";
                    log_det_J ← getitem outputs "log_det_J";
                    Ok [z; log_det_J]
               else b1 ← index batch 1;
                    alpha ← getitem outputs "alpha";
                    alpha0 ← getitem outputs "alpha0";
                    m_probs ← getitem outputs "m_probs";
                    Ok [b1; alpha; alpha0; m_probs]);
  loss ← loss_fun loss_args;
  '(w_decay, bp, e3) ← backprop_step clip_value clip_method loss e2;
  losses1 ← append "regularization" w_decay (losses s);
  losses2 ← append "loss" loss losses1;
  let p_bar' :=
    match p_bar s with
    | Some calls =>
        Some (calls ++ [SetPostfixOffline bi loss w_decay; Update 1])
    | None => None
    end in
  Ok {| env := e3; losses := losses2; p_bar := p_bar';
        steps := steps s ++ [bp] |}.

Definition train_offline (dataset : list (list Tensor))
    (p_bar : option (list pbar_call)) (clip_value : option Q)
    (clip_method : string) (method : string) (e : Env)
  : result (loop_state Env Grads) :=
  for_each (offline_iteration clip_value clip_method method)
    (enumerate dataset) (initial_state e p_bar).

End Loops.

(** *** What the properties below speak about *)

Section Observations.

Context `{Collaborators Env Tensor Grads}.

(** One recorded backpropagation step, against the loss and the
    regularization entry that the same iteration appended to the history:
    the entry is the sum of [model.losses] (zero when there are none), the
    sum of the two was differentiated, and the optimizer was given the
    clipped gradients when a threshold was set and the raw ones otherwise. *)
Definition step_spec (clip_value : option Q) (clip_method : string)
    (loss w_decay : Q) (bp : backprop Grads) : Prop :=
  (w_decay == Qsum (declared bp))%Q /\
  (declared bp = [] -> w_decay = 0%Q) /\
  differentiated bp = (loss + w_decay)%Q /\
  (exists e e',
      declared bp = model_losses e /\
      tape_gradient (differentiated bp) e = Ok (raw_gradients bp) /\
      apply_gradients (applied_gradients bp) e = Ok e') /\
  match clip_value with
  | Some c =>
      clip_gradients (raw_gradients bp) c clip_method
      = Ok (applied_gradients bp)
  | None => applied_gradients bp = raw_gradients bp
  end.

(** The state after [n] iterations of either loop. *)
Definition history_inv (clip_value : option Q) (clip_method : string)
    (n : nat) (s : loop_state Env Grads) : Prop :=
  exists L R : list Q,
    losses s !! "loss" = Some L /\
    losses s !! "regularization" = Some R /\
    dom (losses s) = ({["loss"; "regularization"]} : gset string) /\
    length L = n /\
    Forall3 (step_spec clip_value clip_method) L R (steps s).

(** The returned dictionary: exactly the two keys, each with [n] entries. *)
Definition has_history (n : nat) (d : gmap string (list Q)) : Prop :=
  dom d = ({["loss"; "regularization"]} : gset string) /\
  exists L R : list Q,
    d !! "loss" = Some L /\ d !! "regularization" = Some R /\
    length L = n /\ length R = n.

(** The regularization entry [w_decay] of an iteration is the sum of the
    declared auxiliary losses, zero when none is declared, and the tape was
    asked for the gradients of the task loss plus that entry. *)
Definition regularized_objective (loss w_decay : Q) (bp : backprop Grads)
  : Prop :=
  (w_decay == Qsum (declared bp))%Q /\
  (declared bp = [] -> w_decay = 0%Q) /\
  differentiated bp = (loss + w_decay)%Q /\
  exists e,
    declared bp = model_losses e /\
    tape_gradient (differentiated bp) e = Ok (raw_gradients bp).

(** The optimizer was given the output of [clip_gradients] on the tape's
    gradients when [clip_value] is not [None], and the tape's gradients
    themselves when it is. *)
Definition optimizer_input (clip_value : option Q) (clip_method : string)
    (bp : backprop Grads) : Prop :=
  (exists e e',
      tape_gradient (differentiated bp) e = Ok (raw_gradients bp) /\
      apply_gradients (applied_gradients bp) e = Ok e') /\
  match clip_value with
  | Some c =>
      clip_gradients (raw_gradients bp) c clip_method
      = Ok (applied_gradients bp)
  | None => applied_gradients bp = raw_gradients bp
  end.

(** [P] holds of each of the [n] iterations of a finished run: of the
    loss and regularization entries it appended and of its backpropagation
    step. *)
Definition every_iteration (P : Q -> Q -> backprop Grads -> Prop) (n : nat)
    (s : loop_state Env Grads) : Prop :=
  exists L R : list Q,
    losses s !! "loss" = Some L /\
    losses s !! "regularization" = Some R /\
    length (steps s) = n /\
    forall k bp, steps s !! k = Some bp ->
      exists loss w_decay,
        L !! k = Some loss /\ R !! k = Some w_decay /\ P loss w_decay bp.

End Observations.

(** The running loss of iteration [it] as the code computes it, for a
    window [n_smooth >= 1], from the history [L] and the iteration's own
    loss: that loss while [it < n_smooth], and from then on the mean of the
    last [n_smooth] entries recorded up to and including iteration [it]. *)
Definition running_loss_at (n_smooth : Z) (L : list Q) (it : Z) (loss : Q)
  : pyfloat :=
  if it <? n_smooth then Finite loss
  else Finite (arithmetic_mean
                 (lastn (Z.to_nat n_smooth) (take (Z.to_nat it) L))).

(** The calls [train_online] makes on the progress bar, from the returned
    histories. *)
Definition online_reports (n_smooth : Z) (L R : list Q) : list pbar_call :=
  concat (imap (fun k '(loss, w_decay) =>
                  let it := Z.of_nat k + 1 in
                  [SetPostfixOnline it loss
                     (running_loss_at n_smooth L it loss) w_decay;
                   Update 1])
               (zip L R)).

(** The mean the specification names for iteration [it]: that of the last
    [min(n_smooth, it)] entries recorded up to and including [it]. *)
Definition windowed_mean_at (n_smooth : Z) (L : list Q) (it : Z) : Q :=
  arithmetic_mean
    (lastn (Z.to_nat (Z.min n_smooth it)) (take (Z.to_nat it) L)).

(** The specification's sentence about the calls made on the progress bar:
    every reported running loss is [windowed_mean_at]. *)
Definition reports_windowed_mean (n_smooth : Z) (L : list Q)
    (calls : list pbar_call) : Prop :=
  forall it loss running w_decay,
    SetPostfixOnline it loss running w_decay ∈ calls ->
    exists q, running = Finite q /\ (q == windowed_mean_at n_smooth L it)%Q.

(** The same of what the code reports: every reported running loss is
    [running_loss_at], and the reported loss is the entry that iteration
    recorded. *)
Definition reports_running_loss (n_smooth : Z) (L : list Q)
    (calls : list pbar_call) : Prop :=
  forall it loss running w_decay,
    SetPostfixOnline it loss running w_decay ∈ calls ->
    1 <= it /\ L !! Z.to_nat (it - 1) = Some loss /\
    running = running_loss_at n_smooth L it loss.

(** The state after the iterations [pre] of [train_online]: the progress
    bar, when there is one, has received the reports [online_reports]
    lists for the history so far. *)
Definition reports_inv {Env Grads : Type} (ns : Z)
    (pb : option (list pbar_call)) (pre : list Z) (s : loop_state Env Grads)
  : Prop :=
  exists L R : list Q,
    losses s !! "loss" = Some L /\
    losses s !! "regularization" = Some R /\
    length L = length pre /\ length R = length pre /\
    p_bar s = (fun calls => calls ++ online_reports ns L R) <$> pb.

(** *** A small concrete run

    A one-parameter model whose loss on a batch is the batch's value: the
    environment is the list of values the generator still has to yield.
    The model declares two auxiliary losses of one half each, the gradient
    of a scalar is the scalar, and global-norm clipping of a non-negative
    one-dimensional gradient is the minimum with the threshold. *)

#[local] Instance toy : Collaborators (list Q) Q Q := {|
  data_gen := fun _ e =>
    match e with
    | q :: e' => Ok (<["theta" := q]> (<["x" := q]> ∅), e')
    | [] => Raise (External "data_gen")
    end;
  model := fun inputs e =>
    Ok (<["z" := default 0%Q (head inputs)]> (<["log_det_J" := 0%Q]> ∅), e);
  loss_fun := fun args => Ok (default 0%Q (head args));
  model_losses := fun _ => [(1 # 2)%Q; (1 # 2)%Q];
  tape_gradient := fun total_loss _ => Ok total_loss;
  clip_gradients := fun g c m =>
    if String.eqb m "global_norm"
    then Ok (if Qle_bool g c then g else c)
    else Raise ValueError;
  apply_gradients := fun _ e => Ok e
|}.

(** The calls [train_offline] makes on the progress bar, from the returned
    histories: the batch index counts from zero. *)
Definition offline_reports (L R : list Q) : list pbar_call :=
  concat (imap (fun k '(loss, w_decay) =>
                  [SetPostfixOffline (Z.of_nat k) loss w_decay; Update 1])
               (zip L R)).

(** The calls [train_online] makes on the progress bar when the running
    loss of iteration [it] with loss [loss] is [running it loss]. *)
Definition online_reports_with (running : Z -> Q -> pyfloat) (L R : list Q)
  : list pbar_call :=
  concat (imap (fun k '(loss, w_decay) =>
                  let it := Z.of_nat k + 1 in
                  [SetPostfixOnline it loss (running it loss) w_decay;
                   Update 1])
               (zip L R)).

(** Line 86 as written, on the history [L] of a finished run: the entries
    recorded up to and including iteration [it] are the first [it]. *)
Definition running_loss_line86 (n_smooth : Z) (L : list Q) (it : Z) (loss : Q)
  : pyfloat :=
  if it <? n_smooth then Finite loss
  else np_mean (slice_from (take (Z.to_nat it) L) (- n_smooth)).

(** Two loop states that differ at most in the progress bar. *)
Definition same_training {Env Grads : Type} (s1 s2 : loop_state Env Grads)
  : Prop :=
  env s1 = env s2 /\ losses s1 = losses s2 /\ steps s1 = steps s2.

(** The toy run with a generator whose batches carry no ["theta"]. *)
#[local] Instance toy_without_theta : Collaborators (list Q) Q Q := {|
  data_gen := fun _ e => Ok (<["x" := 0%Q]> ∅, e);
  model := model (Collaborators := toy);
  loss_fun := loss_fun (Collaborators := toy);
  model_losses := model_losses (Collaborators := toy);
  tape_gradient := tape_gradient (Collaborators := toy);
  clip_gradients := clip_gradients (Collaborators := toy);
  apply_gradients := apply_gradients (Collaborators := toy)
|}.

End Training.

(** ** bayesflow/diagnostics.py *)

Module Diagnostics.

(** *** Floats and NumPy arrays

    An array is its shape and its indexing function; indexing out of the
    shape is checked where the code indexes ([column], [subscript]). The
    entries of the sample arrays are [pyfloat]s, so that [nan] compares as
    NumPy's does. *)

Definition Qltb (x y : Q) : bool := (Qnum x * QDen y <? Qnum y * QDen x)%Z.

(** [a < b] on floats: false as soon as one side is [nan]. *)
Definition float_ltb (a b : pyfloat) : bool :=
  match a, b with
  | Finite x, Finite y => Qltb x y
  | _, _ => false
  end.

(** Python's builtin [min(a, b)] and [max(a, b)]: the first argument unless
    the second compares strictly below (above) it. *)
Definition py_min (a b : pyfloat) : pyfloat := if float_ltb b a then b else a.
Definition py_max (a b : pyfloat) : pyfloat := if float_ltb a b then b else a.

(** [np.minimum] and [np.maximum] on two scalars: [nan] wins. *)
Definition np_minimum (a b : pyfloat) : pyfloat :=
  match a, b with
  | Finite x, Finite y => if Qltb y x then b else a
  | _, _ => NaN
  end.
Definition np_maximum (a b : pyfloat) : pyfloat :=
  match a, b with
  | Finite x, Finite y => if Qltb x y then b else a
  | _, _ => NaN
  end.

Definition float_sub (a b : pyfloat) : pyfloat :=
  match a, b with
  | Finite x, Finite y => Finite (x - y)
  | _, _ => NaN
  end.
Definition float_add (a b : pyfloat) : pyfloat :=
  match a, b with
  | Finite x, Finite y => Finite (x + y)
  | _, _ => NaN
  end.
Definition float_mul (a b : pyfloat) : pyfloat :=
  match a, b with
  | Finite x, Finite y => Finite (x * y)
  | _, _ => NaN
  end.

Record array1 (T : Type) : Type := {
  len : nat;
  at1 : nat -> T
}.
Arguments len {T} a.
Arguments at1 {T} a _.

(** Shape [(rows, cols)]. *)
Record array2 (T : Type) : Type := {
  rows : nat;
  cols : nat;
  at2 : nat -> nat -> T
}.
Arguments rows {T} a.
Arguments cols {T} a.
Arguments at2 {T} a _ _.

(** Shape [(dim0, dim1, dim2)]. *)
Record array3 (T : Type) : Type := {
  dim0 : nat;
  dim1 : nat;
  dim2 : nat;
  at3 : nat -> nat -> nat -> T
}.
Arguments dim0 {T} a.
Arguments dim1 {T} a.
Arguments dim2 {T} a.
Arguments at3 {T} a _ _ _.

(** The entries of a one-dimensional array, in order. *)
Definition entries {T} (a : array1 T) : list T := map (at1 a) (seq 0 (len a)).

(** [a[:, i]] *)
Definition column {T} (a : array2 T) (i : nat) : result (array1 T) :=
  if (i <? cols a)%nat
  then Ok {| len := rows a; at1 := fun r => at2 a r i |}
  else Raise IndexError.

(** [a.min()] and [a.max()]: an empty array has no minimum. *)
Definition amin (a : array1 pyfloat) : result pyfloat :=
  match entries a with
  | [] => Raise ValueError
  | x :: xs => Ok (fold_left np_minimum xs x)
  end.
Definition amax (a : array1 pyfloat) : result pyfloat :=
  match entries a with
  | [] => Raise ValueError
  | x :: xs => Ok (fold_left np_maximum xs x)
  end.

(** The length two dimensions broadcast to. *)
Definition broadcast_dim (a b : nat) : result nat :=
  if (a =? b)%nat then Ok a
  else if (a =? 1)%nat then Ok b
  else if (b =? 1)%nat then Ok a
  else Raise ValueError.

(** The index into an operand along a dimension of length [dim]: a
    dimension of length one is stretched. *)
Definition stretch (dim i : nat) : nat := if (dim =? 1)%nat then 0%nat else i.

(** [post_samples < prior_samples[:, np.newaxis, :]] *)
Definition less_broadcast (post_samples : array3 pyfloat)
    (prior_samples : array2 pyfloat) : result (array3 bool) :=
  n0 ← broadcast_dim (dim0 post_samples) (rows prior_samples);
  n1 ← broadcast_dim (dim1 post_samples) 1;
  n2 ← broadcast_dim (dim2 post_samples) (cols prior_samples);
  Ok {| dim0 := n0; dim1 := n1; dim2 := n2;
        at3 := fun i m j =>
          float_ltb
            (at3 post_samples (stretch (dim0 post_samples) i)
               (stretch (dim1 post_samples) m)
               (stretch (dim2 post_samples) j))
            (at2 prior_samples (stretch (rows prior_samples) i)
               (stretch (cols prior_samples) j)) |}.

(** [np.sum(b, axis=1)] of a boolean array. *)
Definition sum_axis1 (b : array3 bool) : array2 Z :=
  {| rows := dim0 b; cols := dim2 b;
     at2 := fun i j =>
       fold_right Z.add 0
         (map (fun m => if at3 b i m j then 1 else 0) (seq 0 (dim1 b))) |}.

(** [np.mean(a, axis=1)]: [nan] where a draw is [nan] or there is none. *)
Definition float_mean (l : list pyfloat) : pyfloat :=
  match l with
  | [] => NaN
  | _ :: _ =>
      match fold_right float_add (Finite 0) l with
      | Finite total => Finite (total / inject_Z (Z.of_nat (length l)))
      | NaN => NaN
      end
  end.
Definition np_mean_axis1 (a : array3 pyfloat) : result (array2 pyfloat) :=
  Ok {| rows := dim0 a; cols := dim2 a;
        at2 := fun i j =>
          float_mean (map (fun m => at3 a i m j) (seq 0 (dim1 a))) |}.

(** *** Subplots *)

(** [int(np.ceil(n / d))] for [d > 0]. *)
Definition ceil_div (n d : nat) : nat := ((n + d - 1) / d)%nat.

(** Lines 74-75, 167-168 and 215-216: the grid of subplots. The second
    division is by [n_row], which is zero when there is no parameter. *)
Definition subplot_grid (n : nat) : result (nat * nat) :=
  let n_row := ceil_div n 6 in
  if (n_row =? 0)%nat then Raise ZeroDivisionError
  else Ok (n_row, ceil_div n n_row).

(** What [plt.subplots(n_row, n_col)] returns for the axes: one [Axes]
    object for a single cell, a one-dimensional array for one row or one
    column, a two-dimensional array otherwise; [Flat] is the [.flat]
    iterator of an array. *)
Inductive axes : Type :=
  | Single
  | Array1 (n : nat)
  | Array2 (n_row n_col : nat)
  | Flat (cells : nat).

Definition subplots (n_row n_col : nat) : result axes :=
  if ((n_row =? 0) || (n_col =? 0))%nat then Raise ValueError
  else if ((n_row =? 1) && (n_col =? 1))%nat then Ok Single
  else if (n_row =? 1)%nat then Ok (Array1 n_col)
  else if (n_col =? 1)%nat then Ok (Array1 n_row)
  else Ok (Array2 n_row n_col).

(** [axarr.flat]: an attribute of arrays, not of an [Axes] object. *)
Definition flat (axarr : axes) : result axes :=
  match axarr with
  | Single => Raise AttributeError
  | Array1 n => Ok (Flat n)
  | Array2 r c => Ok (Flat (r * c))
  | Flat n => Raise AttributeError
  end.

(** [ax[j]], to be used as an [Axes] object: an [Axes] object cannot be
    subscripted, and a row of a two-dimensional array is an array. The
    result is the position of the cell. *)
Definition subscript (ax : axes) (j : nat) : result nat :=
  match ax with
  | Single => Raise TypeError
  | Array1 n => if (j <? n)%nat then Ok j else Raise IndexError
  | Array2 r c => if (j <? r)%nat then Raise AttributeError else Raise IndexError
  | Flat n => if (j <? n)%nat then Ok j else Raise IndexError
  end.

(** [ax.set_title]: a method of an [Axes] object only. *)
Definition set_title_method (ax : axes) : result unit :=
  match ax with
  | Single => Ok tt
  | _ => Raise AttributeError
  end.

(** [[f'p_{i}' for i in range(1, n+1)]] and its like. *)
Definition default_names (prefix : string) (n : nat) : list string :=
  map (fun i => prefix +:+ pretty i) (seq 1 n).

(** [a / b] on Python integers. *)
Definition true_div (a b : Z) : result Q :=
  if b =? 0 then Raise ZeroDivisionError
  else Ok (inject_Z a / inject_Z b)%Q.

(** *** plot_recovery

    A figure is the list of its panels, each with what was drawn on it.
    Colours, font sizes and the figure size go to matplotlib unchanged and
    are left out. The library calls of a cell raise where the libraries
    reject their arguments ([errorbar], [set_lim], [r2_score] below); the
    values of [r2_score] and [np.corrcoef] only go into a label and are not
    kept. *)

Record recovery_panel : Type := {
  truth : array1 pyfloat;
  estimate : array1 pyfloat;
  yerr : array1 pyfloat;
  limits : pyfloat * pyfloat;
  with_r2 : bool;
  with_corr : bool;
  recovery_title : string
}.

(** An aggregator: a callable applied as [agg(post_samples, axis=1)]. *)
Definition aggregator : Type := array3 pyfloat -> result (array2 pyfloat).

Definition is_nan (v : pyfloat) : bool :=
  match v with
  | NaN => true
  | Finite _ => false
  end.

(** [ax.errorbar(x, y, yerr=e, ...)]: matplotlib raises a [ValueError] when
    [x] and [y] differ in size, when [yerr] does not broadcast against [y]
    (it has the size of [y], or size one), and when an error bar is
    negative ([nan] is not). *)
Definition errorbar (x y e : array1 pyfloat) : result unit :=
  if negb (len x =? len y)%nat then Raise ValueError
  else if negb ((len e =? len y)%nat || (len e =? 1)%nat) then Raise ValueError
  else if existsb (fun v => float_ltb v (Finite 0)) (entries e)
       then Raise ValueError
  else Ok tt.

(** [ax.set_xlim([lo, hi])] and [ax.set_ylim([lo, hi])]: matplotlib raises
    a [ValueError] for a limit that is [nan]. *)
Definition set_lim (lo hi : pyfloat) : result unit :=
  if is_nan lo || is_nan hi then Raise ValueError else Ok tt.

(** [r2_score(y_true, y_pred)]: scikit-learn raises a [ValueError] for
    arrays of different sizes and for input that contains [nan]. *)
Definition r2_score (y_true y_pred : array1 pyfloat) : result unit :=
  if negb (len y_true =? len y_pred)%nat then Raise ValueError
  else if existsb is_nan (entries y_true ++ entries y_pred)
       then Raise ValueError
  else Ok tt.

(** The body of the loop of [plot_recovery] (lines 86-120), on cell [i]. *)
Definition recovery_cell (prior_samples est u : array2 pyfloat)
    (param_names : list string) (add_corr add_r2 : bool) (i : nat)
  : result recovery_panel :=
  x ← column prior_samples i;
  y ← column est i;
  e ← column u i;
  _ ← errorbar x y e;
  x_min ← amin x;
  y_min ← amin y;
  let lower := py_min x_min y_min in
  x_max ← amax x;
  y_max ← amax y;
  let upper := py_max x_max y_max in
  let eps := float_mul (float_sub upper lower) (Finite (1 # 10)) in
  _ ← set_lim (float_sub lower eps) (float_add upper eps);
  _ ← (if add_r2 then r2_score x y else Ok tt);
  name ← index param_names i;
  Ok {| truth := x; estimate := y; yerr := e;
        limits := (float_sub lower eps, float_add upper eps);
        with_r2 := add_r2; with_corr := add_corr;
        recovery_title := name |}.

Definition plot_recovery (post_samples : array3 pyfloat)
    (prior_samples : array2 pyfloat) (point_agg : aggregator)
    (uncertainty_agg : option aggregator) (param_names : option (list string))
    (add_corr add_r2 : bool) : result (list recovery_panel) :=
  est ← point_agg post_samples;
  u ← match uncertainty_agg with
      | Some agg => agg post_samples
      | None => Raise TypeError
      end;
  let n_params := cols prior_samples in
  let param_names :=
    match param_names with
    | Some names => names
    | None => default_names "p_" n_params
    end in
  '(n_row, n_col) ← subplot_grid n_params;
  axarr ← subplots n_row n_col;
  it ← flat axarr;
  match it with
  | Flat cells =>
      draw_each
        (recovery_cell prior_samples est u param_names add_corr add_r2)
        (seq 0 cells)
  | _ => Raise TypeError
  end.

(** *** plot_sbc *)

Record sbc_panel : Type := {
  band : Q * Q;
  midline : Q;
  histogram : array1 Z;
  bins : Z;
  sbc_title : string
}.

(** Line 176: the rank statistics. *)
Definition sbc_ranks (post_samples : array3 pyfloat)
    (prior_samples : array2 pyfloat) : result (array2 Z) :=
  below ← less_broadcast post_samples prior_samples;
  Ok (sum_axis1 below).

(** Line 180: the arguments [binom.interval] is called with. *)
Definition interval_arguments (binomial_interval : Q)
    (prior_samples : array2 pyfloat) (num_bins : Z) : result (Q * Z * Q) :=
  let N := Z.of_nat (rows prior_samples) in
  p ← true_div 1 (num_bins + 1);
  Ok (binomial_interval, N, p).

(** The body of the loop of [plot_sbc] (lines 189-197), on parameter [j]. *)
Definition sbc_cell (ax : axes) (endpoints : Q * Q) (ranks : array2 Z)
    (num_bins : Z) (param_names : list string) (j : nat) : result sbc_panel :=
  _ ← subscript ax j;
  data ← column ranks j;
  name ← index param_names j;
  Ok {| band := endpoints;
        midline := ((fst endpoints + snd endpoints) / 2)%Q;
        histogram := data; bins := num_bins; sbc_title := name |}.

Section Sbc.

(** [scipy.stats.binom.interval(confidence, n, p)] *)
Variable binom_interval : Q -> Z -> Q -> Q * Q.

Definition plot_sbc (post_samples : array3 pyfloat)
    (prior_samples : array2 pyfloat) (param_names : option (list string))
    (num_bins : Z) (binomial_interval : Q) : result (list sbc_panel) :=
  let n_params := cols prior_samples in
  let param_names :=
    match param_names with
    | Some names => names
    | None => default_names "p_" n_params
    end in
  '(n_row, n_col) ← subplot_grid n_params;
  axarr ← subplots n_row n_col;
  ranks ← sbc_ranks post_samples prior_samples;
  '(confidence, N, p) ← interval_arguments binomial_interval prior_samples
                          num_bins;
  let endpoints := binom_interval confidence N p in
  ax ← (if (1 <? n_row)%nat then flat axarr else Ok axarr);
  draw_each (sbc_cell ax endpoints ranks num_bins param_names)
    (seq 0 (length param_names)).

End Sbc.

(** *** plot_calibration_curves *)

Record calibration_panel : Type := {
  accuracy : list Q;
  confidence : list Q;
  ece : Q;
  calibration_title : string
}.

(** The body of the loop of [plot_calibration_curves] (lines 233-254), on
    model [j]. The last statement looks [set_title] up on [ax], not on
    [ax[j]], before it evaluates [model_names[j]]. *)
Definition calibration_cell (ax : axes) (cal_errs : list Q)
    (cal_probs : list (list (list Q))) (model_names : list string) (j : nat)
  : result calibration_panel :=
  _ ← subscript ax j;
  curve ← index cal_probs j;
  acc ← index curve 0;
  conf ← index curve 1;
  err ← index cal_errs j;
  _ ← set_title_method ax;
  name ← index model_names j;
  Ok {| accuracy := acc; confidence := conf; ece := err;
        calibration_title := name |}.

Section Calibration.

(** [expected_calibration_error(m_true, m_pred, n_bins)], from
    [bayesflow.computational_utilities]: the calibration errors and the
    calibration curves, by model. *)
Variable expected_calibration_error :
  array2 pyfloat -> array2 pyfloat -> Z ->
  result (list Q * list (list (list Q))).

Definition plot_calibration_curves (m_true m_pred : array2 pyfloat)
    (model_names : option (list string)) (n_bins : Z)
  : result (list calibration_panel) :=
  let n_models := cols m_pred in
  let model_names :=
    match model_names with
    | Some names => names
    | None => default_names "M_" n_models
    end in
  '(n_row, n_col) ← subplot_grid n_models;
  '(cal_errs, cal_probs) ← expected_calibration_error m_true m_pred n_bins;
  axarr ← subplots n_row n_col;
  ax ← (if (1 <? n_row)%nat then flat axarr else Ok axarr);
  draw_each (calibration_cell ax cal_errs cal_probs model_names)
    (seq 0 n_models).

End Calibration.

(** *** The binomial distribution

    A reference for [scipy.stats.binom.interval], in exact arithmetic:
    the interval of confidence [c] runs from the quantile of [(1 - c) / 2]
    to the quantile of [(1 + c) / 2], the quantile of [q] being the least
    count whose cumulative probability reaches [q]. *)

(** The binomial coefficient, by [C(n, k + 1) = C(n, k) (n - k) / (k + 1)]. *)
Fixpoint choose (n : Z) (k : nat) : Z :=
  match k with
  | O => 1
  | S k' => choose n k' * (n - Z.of_nat k') / Z.of_nat k
  end.

(** [b ^ n] times the probability of [k] successes in [n] trials of
    success probability [a / b]. *)
Definition binom_weight (n a b : Z) (k : nat) : Z :=
  choose n k * a ^ Z.of_nat k * (b - a) ^ (n - Z.of_nat k).

(** The least count from [k] on, searched with [fuel] steps left, at which
    the cumulated [weight], [below] being that of the counts under [k],
    reaches [target]. *)
Fixpoint quantile_from (weight : nat -> Z) (target : Z) (fuel k : nat)
    (below : Z) : Z :=
  match fuel with
  | O => Z.of_nat k
  | S fuel' =>
      let upto := below + weight k in
      if target <=? upto then Z.of_nat k
      else quantile_from weight target fuel' (S k) upto
  end.

(** [binom.ppf(q, n, p)] for [0 < q]: the cumulative probability of [k]
    reaches [q] when [Qden q] times the cumulated weight reaches
    [Qnum q * b ^ n]. *)
Definition binom_ppf (q : Q) (n : Z) (p : Q) : Z :=
  let a := Qnum p in
  let b := QDen p in
  quantile_from (fun k => QDen q * binom_weight n a b k) (Qnum q * b ^ n)
    (Z.to_nat n) 0 0.

Definition binom_interval_exact (confidence : Q) (n : Z) (p : Q) : Q * Q :=
  (inject_Z (binom_ppf ((1 - confidence) / 2) n p),
   inject_Z (binom_ppf ((1 + confidence) / 2) n p)).

(** *** What the properties below speak about *)

(** [np.full(shape, x)] *)
Definition full2 {T} (n0 n1 : nat) (x : T) : array2 T :=
  {| rows := n0; cols := n1; at2 := fun _ _ => x |}.
Definition full3 {T} (n0 n1 n2 : nat) (x : T) : array3 T :=
  {| dim0 := n0; dim1 := n1; dim2 := n2; at3 := fun _ _ _ => x |}.

(** An uncertainty aggregator that reports no spread. *)
Definition no_spread : aggregator :=
  fun a => Ok (full2 (dim0 a) (dim2 a) (Finite 0)).




(** The number of posterior draws of dataset [i] strictly below the prior
    value of parameter [j]. *)
Definition draws_below (post_samples : array3 pyfloat)
    (prior_samples : array2 pyfloat) (i j : nat) : nat :=
  length (List.filter
            (fun m => float_ltb (at3 post_samples i m j) (at2 prior_samples i j))
            (seq 0 (dim1 post_samples))).

(** Two datasets, one posterior draw each, three parameters. *)
Definition single_draws : array3 pyfloat :=
  {| dim0 := 2; dim1 := 1; dim2 := 3;
     at3 := fun i _ j => Finite (inject_Z (Z.of_nat (i + 2 * j))) |}.

(** Modelled from the spec: [expected_calibration_error] is not among the
    source files; the specification has it provide, for each model, the
    expected calibration error and the (accuracy, confidence) pair of its
    calibration curve. *)
Definition calibration_output_per_model (n_models : nat) (cal_errs : list Q)
    (cal_probs : list (list (list Q))) : Prop :=
  length cal_errs = n_models /\
  length cal_probs = n_models /\
  Forall (fun curve => length curve = 2%nat) cal_probs.

(** A calibration-error utility that finds every model equally off. *)
Definition constant_calibration :
  array2 pyfloat -> array2 pyfloat -> Z ->
  result (list Q * list (list (list Q))) :=
  fun _ m_pred _ =>
    Ok (replicate (cols m_pred) (1 # 10)%Q,
        replicate (cols m_pred) [[(1 # 2)%Q]; [(1 # 2)%Q]]).

(** Two datasets, three posterior draws each, two parameters: the draws
    of dataset [i] for parameter [j] are [i + j], [i + j + 1], [i + j + 2]. *)
Definition three_draws : array3 pyfloat :=
  {| dim0 := 2; dim1 := 3; dim2 := 2;
     at3 := fun i m j => Finite (inject_Z (Z.of_nat (i + j + m))) |}.

(** The parameter names [plot_recovery] and [plot_sbc] use. *)
Definition names_used (prefix : string) (names : option (list string))
    (n : nat) : list string :=
  match names with
  | Some l => l
  | None => default_names prefix n
  end.

(** Two dimensions that do not broadcast. *)
Definition mismatch (a b : nat) : Prop := a <> b /\ a <> 1%nat /\ b <> 1%nat.


End Diagnostics.

(** ** Gradient clipping *)

Module Clipping.

Local Open Scope R_scope.

(** The Euclidean norm of a gradient vector. *)
Definition sum_of_squares (g : list R) : R :=
  fold_right (fun x acc => x * x + acc) 0 g.

Definition global_norm (g : list R) : R := sqrt (sum_of_squares g).

(** Modelled from the spec: [clip_gradients] is imported from [.utils],
    which is not among the source files. For the method ["global_norm"]
    the specification describes it as rescaling a gradient vector so that
    its overall Euclidean norm does not exceed a threshold, a vector whose
    norm is below the threshold coming out unchanged; it does not describe
    the other methods ([None] here). Gradients are real vectors: the
    statement "up to numerical tolerance" is about floating point, and is
    exact over the reals. *)
Definition clip_gradients (gradients : list R) (clip_value : R)
    (clip_method : string) : option (list R) :=
  if String.eqb clip_method "global_norm" then
    if Rle_dec (global_norm gradients) clip_value then Some gradients
    else Some (map (fun x => x * (clip_value / global_norm gradients))
                 gradients)
  else None.

End Clipping.

(** * Properties *)

(** ** Reasoning about results and loops *)

Lemma bind_Ok {A B} (m : result A) (f : A -> result B) (b : B) :
  m ≫= f = Ok b <-> exists a, m = Ok a /\ f a = Ok b.
Proof.
  destruct m as [a|e]; simpl; split.
  - intros H. exists a. split; [reflexivity | exact H].
  - intros (a' & Ha & Hf). injection Ha as ->. exact Hf.
  - discriminate.
  - intros (a' & Ha & _). discriminate.
Qed.

Lemma getitem_Ok {V} (d : gmap string V) (k : string) (v : V) :
  getitem d k = Ok v <-> d !! k = Some v.
Proof.
  unfold getitem. destruct (d !! k); split; intros H;
    try discriminate; injection H as ->; reflexivity.
Qed.

(** Takes a successful straight-line block apart, one call at a time. *)
Ltac open_block :=
  repeat match goal with
  | H : _ ≫= _ = Ok _ |- _ =>
      let a := fresh "v" in
      let Ha := fresh "E" in
      apply bind_Ok in H as (a & Ha & H)
  | H : (let '(_, _) := ?p in _) = Ok _ |- _ => destruct p
  | H : Ok _ = Ok _ |- _ => injection H as H
  | H : getitem _ _ = Ok _ |- _ => apply getitem_Ok in H
  end.

Lemma for_each_app {A S} (body : A -> S -> result S) (xs ys : list A) (s : S) :
  for_each body (xs ++ ys) s = for_each body xs s ≫= for_each body ys.
Proof.
  revert s. induction xs as [|x xs IH]; intros s; simpl; [reflexivity|].
  destruct (body x s) as [s1|e]; [apply IH | reflexivity].
Qed.

(** Loop invariants: [I pre s] relates the items already processed to the
    state reached; the body may rely on the item's position in the list. *)
Lemma for_each_invariant {A S} (body : A -> S -> result S)
    (I : list A -> S -> Prop) (xs : list A) :
  (forall pre x suf s s',
      xs = pre ++ x :: suf -> I pre s -> body x s = Ok s' ->
      I (pre ++ [x]) s') ->
  forall s s', I [] s -> for_each body xs s = Ok s' -> I xs s'.
Proof.
  intros Hstep.
  assert (G : forall suf pre s s',
             xs = pre ++ suf -> I pre s -> for_each body suf s = Ok s' ->
             I xs s').
  { induction suf as [|x suf IH]; intros pre s s' Hxs HI Hrun; simpl in Hrun.
    - injection Hrun as <-. rewrite Hxs, app_nil_r. exact HI.
    - destruct (body x s) as [s1|e] eqn:Hb; [|discriminate].
      apply (IH (pre ++ [x]) s1 s'); [| |exact Hrun].
      + rewrite Hxs, <- app_assoc. reflexivity.
      + apply (Hstep pre x suf s s1); assumption. }
  intros s s' HI Hrun. apply (G xs [] s s'); [reflexivity| |]; assumption.
Qed.

Lemma length_range (lo hi : Z) : length (range lo hi) = Z.to_nat (hi - lo).
Proof. unfold range. rewrite length_map, length_seq. reflexivity. Qed.

Lemma range_position (lo hi : Z) (pre suf : list Z) (x : Z) :
  range lo hi = pre ++ x :: suf -> x = lo + Z.of_nat (length pre).
Proof.
  intros H.
  assert (L : range lo hi !! length pre = Some x).
  { rewrite H. apply list_lookup_middle. reflexivity. }
  unfold range in L. rewrite list_lookup_fmap in L.
  destruct (seq 0 (Z.to_nat (hi - lo)) !! length pre) as [k|] eqn:Hk;
    [|discriminate].
  apply lookup_seq in Hk as [-> _]. simpl in L. injection L as <-. reflexivity.
Qed.

Lemma length_enumerate {A} (xs : list A) : length (enumerate xs) = length xs.
Proof. unfold enumerate. apply length_imap. Qed.

Lemma enumerate_position {A} (xs : list A) pre suf (i : Z) (x : A) :
  enumerate xs = pre ++ (i, x) :: suf -> i = Z.of_nat (length pre).
Proof.
  intros H.
  assert (L : enumerate xs !! length pre = Some (i, x)).
  { rewrite H. apply list_lookup_middle. reflexivity. }
  unfold enumerate in L. rewrite list_lookup_imap in L.
  destruct (xs !! length pre); [|discriminate].
  simpl in L. injection L as <- _. reflexivity.
Qed.

Lemma Qsum_fold_left (xs : list Q) (x : Q) :
  (fold_left Qplus xs x == x + Qsum xs)%Q.
Proof.
  revert x. induction xs as [|y ys IH]; intros x; simpl.
  - ring.
  - rewrite IH. ring.
Qed.

Lemma lastn_all {A} (k : nat) (l : list A) :
  (length l <= k)%nat -> lastn k l = l.
Proof.
  intros H. unfold lastn. replace (length l - k)%nat with 0%nat by lia.
  reflexivity.
Qed.

Lemma length_lastn {A} (k : nat) (l : list A) :
  length (lastn k l) = Nat.min k (length l).
Proof. unfold lastn. rewrite length_drop. lia. Qed.

(** For a window of at least one entry, the Python slice [l[-n:]] is the
    last [n] entries. *)
Lemma slice_from_lastn {A} (l : list A) (n : Z) :
  1 <= n -> slice_from l (- n) = lastn (Z.to_nat n) l.
Proof.
  intros Hn. unfold slice_from, lastn.
  destruct (Z.ltb_spec (- n) 0) as [_|]; [|lia].
  f_equal. lia.
Qed.

Import Training.

Section TrainingProofs.

Context `{Collaborators Env Tensor Grads}.

Lemma weight_decay_spec (e : Env) (w : Q) :
  weight_decay e = Ok w ->
  (w == Qsum (model_losses e))%Q /\ (model_losses e = [] -> w = 0%Q).
Proof.
  unfold weight_decay. destruct (model_losses e) as [|x xs] eqn:Hl; simpl.
  - intros [= <-]. split; [reflexivity | reflexivity].
  - intros [= <-]. split; [|discriminate].
    rewrite Qsum_fold_left. reflexivity.
Qed.

Lemma backprop_step_spec cv cm (loss : Q) (e e' : Env) (w : Q)
    (bp : backprop Grads) :
  backprop_step cv cm loss e = Ok (w, bp, e') ->
  step_spec cv cm loss w bp.
Proof.
  unfold backprop_step. intros Hb. open_block. subst. simpl.
  apply weight_decay_spec in E as [Hsum Hzero].
  unfold step_spec; simpl. repeat split; try assumption.
  - exists e, e'. repeat split; assumption.
  - destruct cv; [assumption | congruence].
Qed.

Lemma append_spec (key : string) (v : Q) (d d' : gmap string (list Q)) :
  append key v d = Ok d' ->
  exists l, d !! key = Some l /\ d' = <[key := l ++ [v]]> d.
Proof.
  unfold append. intros Ha. open_block. subst. eauto.
Qed.

(** Lines 84-85 and 158-159: both histories grow by one entry, and no key
    is added. *)
Lemma store_losses (loss w : Q) (d d1 d2 : gmap string (list Q)) (L R : list Q) :
  d !! "loss" = Some L ->
  d !! "regularization" = Some R ->
  append "regularization" w d = Ok d1 ->
  append "loss" loss d1 = Ok d2 ->
  d2 !! "loss" = Some (L ++ [loss]) /\
  d2 !! "regularization" = Some (R ++ [w]) /\
  dom d2 = dom d.
Proof.
  intros HL HR H1 H2.
  apply append_spec in H1 as (r & Hr & ->).
  apply append_spec in H2 as (l & Hl & ->).
  rewrite lookup_insert_ne in Hl by discriminate.
  rewrite HL in Hl. injection Hl as <-.
  rewrite HR in Hr. injection Hr as <-.
  split; [apply lookup_insert_eq|].
  split.
  - rewrite lookup_insert_ne by discriminate. apply lookup_insert_eq.
  - rewrite !dom_insert_L.
    assert (In1 : "loss" ∈ dom d) by (apply elem_of_dom; eauto).
    assert (In2 : "regularization" ∈ dom d) by (apply elem_of_dom; eauto).
    apply set_eq. intros k. rewrite !elem_of_union, !elem_of_singleton.
    split; [intros [->|[->|Hk]]; assumption | auto].
Qed.

(** What one successful iteration of [train_online] did. *)
Lemma online_iteration_inv bs cv cm ns method (it : Z)
    (s s' : loop_state Env Grads) :
  online_iteration bs cv cm ns method it s = Ok s' ->
  exists (loss w : Q) (bp : backprop Grads) d1 history,
    step_spec cv cm loss w bp /\
    steps s' = steps s ++ [bp] /\
    append "regularization" w (losses s) = Ok d1 /\
    append "loss" loss d1 = Ok (losses s') /\
    losses s' !! "loss" = Some history /\
    p_bar s' =
      (fun calls =>
         calls ++ [SetPostfixOnline it loss
                     (if it <? ns then Finite loss
                      else np_mean (slice_from history (- ns))) w;
                   Update 1]) <$> p_bar s.
Proof.
  unfold online_iteration. intros Hi. open_block. subst s'. simpl.
  match goal with
  | Hb : backprop_step _ _ ?l _ = Ok (?w, ?bp, _),
    Hr : append "regularization" _ _ = Ok ?d1,
    Hh : _ !! "loss" = Some ?h |- _ =>
      exists l, w, bp, d1, h; apply backprop_step_spec in Hb
  end.
  do 5 (split; [first [assumption | reflexivity]|]).
  destruct (p_bar s); reflexivity.
Qed.

(** What one successful iteration of [train_offline] did. *)
Lemma offline_iteration_inv cv cm method (bi : Z) (batch : list Tensor)
    (s s' : loop_state Env Grads) :
  offline_iteration cv cm method (bi, batch) s = Ok s' ->
  exists (loss w : Q) (bp : backprop Grads) d1,
    step_spec cv cm loss w bp /\
    steps s' = steps s ++ [bp] /\
    append "regularization" w (losses s) = Ok d1 /\
    append "loss" loss d1 = Ok (losses s') /\
    p_bar s' =
      (fun calls => calls ++ [SetPostfixOffline bi loss w; Update 1])
        <$> p_bar s.
Proof.
  unfold offline_iteration. intros Hi. open_block. subst s'. simpl.
  match goal with
  | Hb : backprop_step _ _ ?l _ = Ok (?w, ?bp, _),
    Hr : append "regularization" _ _ = Ok ?d1 |- _ =>
      exists l, w, bp, d1; apply backprop_step_spec in Hb
  end.
  do 4 (split; [first [assumption | reflexivity]|]).
  destruct (p_bar s); reflexivity.
Qed.

Lemma history_inv_initial cv cm (e : Env) (pb : option (list pbar_call)) :
  history_inv cv cm 0 (initial_state e pb).
Proof.
  exists [], []. unfold initial_state, initial_losses. cbn [losses steps].
  split; [reflexivity|]. split; [reflexivity|]. split; [|split].
  - rewrite !dom_insert_L, dom_empty_L.
    apply set_eq. intros k.
    rewrite !elem_of_union, !elem_of_singleton, elem_of_empty. tauto.
  - reflexivity.
  - constructor.
Qed.

Lemma history_inv_step cv cm (n : nat) (s s' : loop_state Env Grads)
    (loss w : Q) (bp : backprop Grads) d1 :
  history_inv cv cm n s ->
  step_spec cv cm loss w bp ->
  steps s' = steps s ++ [bp] ->
  append "regularization" w (losses s) = Ok d1 ->
  append "loss" loss d1 = Ok (losses s') ->
  history_inv cv cm (S n) s'.
Proof.
  intros (L & R & HL & HR & Hdom & Hlen & Hall) Hbp Hsteps H1 H2.
  destruct (store_losses _ _ _ _ _ _ _ HL HR H1 H2) as (HL' & HR' & Hdom').
  exists (L ++ [loss]), (R ++ [w]).
  do 2 (split; [assumption|]). split; [congruence|]. split.
  - rewrite length_app. simpl. lia.
  - rewrite Hsteps. apply Forall3_app; [assumption|].
    constructor; [assumption | constructor].
Qed.

(** After a successful [train_online], the history invariant holds for
    [iterations] iterations (none when [iterations] is negative). *)
Lemma train_online_history iterations bs pb cv cm ns method (e : Env)
    (s : loop_state Env Grads) :
  train_online iterations bs pb cv cm ns method e = Ok s ->
  history_inv cv cm (Z.to_nat iterations) s.
Proof.
  unfold train_online. intros Hrun.
  replace (Z.to_nat iterations)
    with (length (range 1 (iterations + 1)))
    by (rewrite length_range; f_equal; lia).
  revert Hrun.
  apply (for_each_invariant _ (fun pre => history_inv cv cm (length pre))).
  - intros pre it suf s1 s2 _ HI Hbody.
    apply online_iteration_inv in Hbody
      as (loss & w & bp & d1 & h & Hbp & Hst & H1 & H2 & _).
    rewrite length_app, Nat.add_1_r.
    eapply history_inv_step; eassumption.
  - apply history_inv_initial.
Qed.

(** After a successful [train_offline], the history invariant holds for as
    many iterations as the dataset has batches. *)
Lemma train_offline_history (dataset : list (list Tensor)) pb cv cm method
    (e : Env) (s : loop_state Env Grads) :
  train_offline dataset pb cv cm method e = Ok s ->
  history_inv cv cm (length dataset) s.
Proof.
  unfold train_offline. intros Hrun.
  rewrite <- (length_enumerate dataset).
  revert Hrun.
  apply (for_each_invariant _ (fun pre => history_inv cv cm (length pre))).
  - intros pre [bi batch] suf s1 s2 _ HI Hbody.
    apply offline_iteration_inv in Hbody
      as (loss & w & bp & d1 & Hbp & Hst & H1 & H2 & _).
    rewrite length_app, Nat.add_1_r.
    eapply history_inv_step; eassumption.
  - apply history_inv_initial.
Qed.

End TrainingProofs.

Section TrainingClaims.

Context `{Collaborators Env Tensor Grads}.

Lemma history_inv_has_history cv cm (n : nat) (s : loop_state Env Grads) :
  history_inv cv cm n s -> has_history n (losses s) /\ length (steps s) = n.
Proof.
  intros (L & R & HL & HR & Hdom & Hlen & Hall).
  pose proof (Forall3_length_lm _ _ _ _ Hall) as Hlm.
  pose proof (Forall3_length_lr _ _ _ _ Hall) as Hlr.
  split; [|congruence].
  split; [assumption|]. exists L, R. repeat split; congruence.
Qed.

Lemma history_inv_every_iteration cv cm (P : Q -> Q -> backprop Grads -> Prop)
    (n : nat) (s : loop_state Env Grads) :
  (forall loss w bp, step_spec cv cm loss w bp -> P loss w bp) ->
  history_inv cv cm n s -> every_iteration P n s.
Proof.
  intros HP (L & R & HL & HR & Hdom & Hlen & Hall).
  pose proof (Forall3_length_lm _ _ _ _ Hall) as Hlm.
  pose proof (Forall3_length_lr _ _ _ _ Hall) as Hlr.
  exists L, R. do 2 (split; [assumption|]). split; [congruence|].
  intros k bp Hk.
  apply lookup_lt_Some in Hk as Hlt.
  destruct (lookup_lt_is_Some_2 L k) as [loss Hloss]; [lia|].
  destruct (lookup_lt_is_Some_2 R k) as [w Hw]; [lia|].
  exists loss, w. do 2 (split; [assumption|]).
  apply HP. exact (Forall3_lookup_lmr _ _ _ _ _ _ _ _ Hall Hloss Hw Hk).
Qed.

Lemma step_spec_objective cv cm (loss w : Q) (bp : backprop Grads) :
  step_spec cv cm loss w bp -> regularized_objective loss w bp.
Proof.
  intros (Hsum & Hzero & Hdiff & (e & e' & Hd & Hg & Ha) & Hclip).
  do 3 (split; [assumption|]). exists e. split; assumption.
Qed.

Lemma step_spec_optimizer cv cm (loss w : Q) (bp : backprop Grads) :
  step_spec cv cm loss w bp -> optimizer_input cv cm bp.
Proof.
  intros (Hsum & Hzero & Hdiff & (e & e' & Hd & Hg & Ha) & Hclip).
  split; [|assumption]. exists e, e'. split; assumption.
Qed.

(** C2. A call that returns hands back a dictionary with exactly the keys
    ["loss"] and ["regularization"]; after [train_online] with an iteration
    count [iterations] (a count: not negative) both lists have exactly
    [iterations] entries, and after [train_offline] both have exactly as many
    entries as the dataset has batches, one backpropagation step having been
    made per batch. *)
Theorem history_lengths :
  (forall iterations bs pb cv cm ns method (e : Env) s,
      0 <= iterations ->
      train_online iterations bs pb cv cm ns method e = Ok s ->
      exists n, Z.of_nat n = iterations /\ has_history n (losses s)) /\
  (forall (dataset : list (list Tensor)) pb cv cm method (e : Env) s,
      train_offline dataset pb cv cm method e = Ok s ->
      has_history (length dataset) (losses s) /\
      length (steps s) = length dataset).
Proof.
  split.
  - intros iterations bs pb cv cm ns method e s Hpos Hrun.
    apply train_online_history, history_inv_has_history in Hrun as [Hh _].
    exists (Z.to_nat iterations). split; [lia | exact Hh].
  - intros dataset pb cv cm method e s Hrun.
    apply train_offline_history, history_inv_has_history in Hrun.
    exact Hrun.
Qed.

(** C5. In every iteration of [train_online] and of [train_offline] the
    regularization entry equals the sum of [model.losses], and is zero when
    there are none; the gradients are taken of the task loss plus that
    entry. *)
Theorem regularization_is_sum_of_model_losses :
  (forall iterations bs pb cv cm ns method (e : Env) s,
      train_online iterations bs pb cv cm ns method e = Ok s ->
      every_iteration regularized_objective (Z.to_nat iterations) s) /\
  (forall (dataset : list (list Tensor)) pb cv cm method (e : Env) s,
      train_offline dataset pb cv cm method e = Ok s ->
      every_iteration regularized_objective (length dataset) s).
Proof.
  split.
  - intros iterations bs pb cv cm ns method e s Hrun.
    apply train_online_history in Hrun.
    revert Hrun. apply history_inv_every_iteration.
    intros loss w bp. apply step_spec_objective.
  - intros dataset pb cv cm method e s Hrun.
    apply train_offline_history in Hrun.
    revert Hrun. apply history_inv_every_iteration.
    intros loss w bp. apply step_spec_objective.
Qed.

(** C7. In every iteration of [train_online] and of [train_offline] the
    optimizer is handed the gradients clipped with [clip_method] and
    [clip_value] when [clip_value] is not [None], and the gradients as the
    tape returned them when it is [None]. *)
Theorem optimizer_gets_clipped_gradients :
  (forall iterations bs pb cv cm ns method (e : Env) s,
      train_online iterations bs pb cv cm ns method e = Ok s ->
      every_iteration (fun _ _ bp => optimizer_input cv cm bp)
        (Z.to_nat iterations) s) /\
  (forall (dataset : list (list Tensor)) pb cv cm method (e : Env) s,
      train_offline dataset pb cv cm method e = Ok s ->
      every_iteration (fun _ _ bp => optimizer_input cv cm bp)
        (length dataset) s).
Proof.
  split.
  - intros iterations bs pb cv cm ns method e s Hrun.
    apply train_online_history in Hrun.
    revert Hrun. apply history_inv_every_iteration.
    intros loss w bp. apply step_spec_optimizer.
  - intros dataset pb cv cm method e s Hrun.
    apply train_offline_history in Hrun.
    revert Hrun. apply history_inv_every_iteration.
    intros loss w bp. apply step_spec_optimizer.
Qed.

End TrainingClaims.

Lemma history_lengths_witness :
  exists s,
    train_online (H := toy) 3 32 (Some []) (Some 5%Q) "global_norm" 2 "flow"
      [1%Q; 3%Q; 8%Q; 4%Q] = Ok s /\
    exists n, Z.of_nat n = 3 /\ has_history n (losses s).
Proof.
  eexists. split; [vm_compute; reflexivity|].
  apply (proj1 (@history_lengths _ _ _ toy)
           3 32 (Some []) (Some 5%Q) "global_norm" 2 "flow"
           [1%Q; 3%Q; 8%Q; 4%Q]); [lia | vm_compute; reflexivity].
Defined.

Lemma regularization_is_sum_of_model_losses_witness :
  exists s,
    train_offline (H := toy) [[1%Q; 0%Q]; [3%Q; 0%Q]] None None "global_norm"
      "flow" [] = Ok s /\
    every_iteration (regularized_objective (H := toy)) 2 s.
Proof.
  eexists. split; [vm_compute; reflexivity|].
  apply (proj2 (@regularization_is_sum_of_model_losses _ _ _ toy)
           [[1%Q; 0%Q]; [3%Q; 0%Q]] None None "global_norm" "flow" []).
  vm_compute; reflexivity.
Defined.

Lemma optimizer_gets_clipped_gradients_witness :
  exists s,
    train_online (H := toy) 3 32 (Some []) (Some 5%Q) "global_norm" 2 "flow"
      [1%Q; 3%Q; 8%Q; 4%Q] = Ok s /\
    every_iteration
      (fun _ _ bp => optimizer_input (H := toy) (Some 5%Q) "global_norm" bp)
      (Z.to_nat 3) s.
Proof.
  eexists. split; [vm_compute; reflexivity|].
  apply (proj1 (@optimizer_gets_clipped_gradients _ _ _ toy)
           3 32 (Some []) (Some 5%Q) "global_norm" 2 "flow"
           [1%Q; 3%Q; 8%Q; 4%Q]).
  vm_compute; reflexivity.
Defined.

(** *** The running loss reported by [train_online] *)

Lemma take_snoc_stable {A} (L : list A) (x : A) (k : nat) :
  (k <= length L)%nat -> take k (L ++ [x]) = take k L.
Proof. intros Hk. apply take_app_le. exact Hk. Qed.

Lemma running_loss_at_snoc (ns : Z) (L : list Q) (x : Q) (k : nat) (l : Q) :
  (k < length L)%nat ->
  running_loss_at ns (L ++ [x]) (Z.of_nat k + 1) l
  = running_loss_at ns L (Z.of_nat k + 1) l.
Proof.
  intros Hk. unfold running_loss_at.
  rewrite take_snoc_stable by lia. reflexivity.
Qed.

Lemma online_reports_snoc (ns : Z) (L R : list Q) (loss w : Q) :
  length L = length R ->
  online_reports ns (L ++ [loss]) (R ++ [w])
  = online_reports ns L R
    ++ [SetPostfixOnline (Z.of_nat (length L) + 1) loss
          (running_loss_at ns (L ++ [loss]) (Z.of_nat (length L) + 1) loss) w;
        Update 1].
Proof.
  intros Hlen. unfold online_reports.
  rewrite zip_with_app by exact Hlen.
  rewrite imap_app, concat_app. simpl.
  rewrite length_zip_with, <- Hlen, Nat.min_id, Nat.add_0_r.
  f_equal. f_equal.
  apply imap_ext. intros k [l r] Hk. simpl.
  rewrite running_loss_at_snoc; [reflexivity|].
  apply lookup_lt_Some in Hk. rewrite length_zip_with in Hk. lia.
Qed.

(** With a window of at least one entry, what line 86 computes in iteration
    [it], the history then holding [it] entries. *)
Lemma running_loss_line (ns : Z) (history : list Q) (it : Z) (loss : Q) :
  1 <= ns -> 1 <= it -> Z.of_nat (length history) = it ->
  (if it <? ns then Finite loss
   else np_mean (slice_from history (- ns)))
  = running_loss_at ns history it loss.
Proof.
  intros Hns Hit Hlen. unfold running_loss_at.
  destruct (it <? ns); [reflexivity|].
  rewrite slice_from_lastn by exact Hns.
  replace (Z.to_nat it) with (length history) by lia.
  rewrite take_ge by lia.
  assert (Hne : (0 < length (lastn (Z.to_nat ns) history))%nat)
    by (rewrite length_lastn; lia).
  destruct (lastn (Z.to_nat ns) history) eqn:E; [simpl in Hne; lia|].
  reflexivity.
Qed.

Section TrainingReports.

Context `{Collaborators Env Tensor Grads}.

Lemma train_online_reports iterations bs pb cv cm ns method (e : Env)
    (s : loop_state Env Grads) :
  1 <= ns ->
  train_online iterations bs pb cv cm ns method e = Ok s ->
  reports_inv ns pb (range 1 (iterations + 1)) s.
Proof.
  intros Hns. unfold train_online.
  apply (for_each_invariant _ (reports_inv ns pb)).
  - intros pre it suf s1 s2 Hpos (L & R & HL & HR & HlenL & HlenR & Hpb) Hbody.
    apply range_position in Hpos.
    apply online_iteration_inv in Hbody
      as (loss & w & bp & d1 & h & _ & _ & H1 & H2 & Hh & Hpb').
    destruct (store_losses _ _ _ _ _ _ _ HL HR H1 H2) as (HL' & HR' & _).
    rewrite HL' in Hh. injection Hh as <-.
    exists (L ++ [loss]), (R ++ [w]).
    do 2 (split; [assumption|]).
    split; [rewrite !length_app; simpl; lia|].
    split; [rewrite !length_app; simpl; lia|].
    rewrite Hpb', Hpb.
    rewrite running_loss_line
      by (try assumption; rewrite ?length_app; simpl; lia).
    rewrite online_reports_snoc by congruence.
    replace (Z.of_nat (length L) + 1) with it by lia.
    destruct pb as [calls|]; simpl; [|reflexivity].
    rewrite <- app_assoc. reflexivity.
  - exists [], []. repeat split. destruct pb; simpl; [|reflexivity].
    rewrite app_nil_r. reflexivity.
Qed.

End TrainingReports.

Lemma online_reports_elem (ns : Z) (L R : list Q) :
  reports_running_loss ns L (online_reports ns L R).
Proof.
  intros it loss running w Hin. unfold online_reports in Hin.
  apply list_elem_of_In, in_concat in Hin as (block & Hblock & Hin).
  apply list_elem_of_In, elem_of_lookup_imap in Hblock
    as (k & [l r] & -> & Hk).
  apply lookup_zip_with_Some in Hk as (l' & r' & [= <- <-] & Hl & Hr).
  simpl in Hin. destruct Hin as [[= <- <- <- <-]|[Hin|[]]]; [|discriminate].
  split; [lia|]. split; [|reflexivity].
  replace (Z.to_nat (Z.of_nat k + 1 - 1)) with k by lia. exact Hl.
Qed.

(** C1, as the code has it. For a window [n_smooth >= 1] and a progress
    bar, a run of [train_online] that returns has made on the progress bar
    exactly the calls [online_reports] lists for the returned histories:
    one report and one [update(1)] per iteration, the running loss of
    iteration [it] being that iteration's own loss while [it < n_smooth] and
    the arithmetic mean of the last [n_smooth] recorded losses from
    [it = n_smooth] on. *)
Theorem running_loss_reported `{Collaborators Env Tensor Grads}
    iterations bs calls cv cm ns method (e : Env) s :
  1 <= ns ->
  train_online iterations bs (Some calls) cv cm ns method e = Ok s ->
  exists L R : list Q,
    losses s !! "loss" = Some L /\
    losses s !! "regularization" = Some R /\
    p_bar s = Some (calls ++ online_reports ns L R) /\
    reports_running_loss ns L (online_reports ns L R).
Proof.
  intros Hns Hrun.
  apply train_online_reports in Hrun as (L & R & HL & HR & _ & _ & Hpb);
    [|exact Hns].
  exists L, R. do 3 (split; [assumption|]). apply online_reports_elem.
Qed.

Lemma running_loss_reported_witness :
  exists s,
    train_online (H := toy) 3 32 (Some []) (Some 5%Q) "global_norm" 2 "flow"
      [1%Q; 3%Q; 8%Q; 4%Q] = Ok s /\
    exists L R : list Q,
      losses s !! "loss" = Some L /\
      losses s !! "regularization" = Some R /\
      p_bar s = Some ([] ++ online_reports 2 L R) /\
      reports_running_loss 2 L (online_reports 2 L R).
Proof.
  eexists. split; [vm_compute; reflexivity|].
  apply (@running_loss_reported _ _ _ toy
           3 32 [] (Some 5%Q) "global_norm" 2 "flow" [1%Q; 3%Q; 8%Q; 4%Q]);
    [lia | vm_compute; reflexivity].
Defined.

(** C1, as the specification states it, fails: with the default window of
    100 and losses 1 and 3, the second report carries the running loss 3,
    not the mean 2 of the two recorded losses. *)
Lemma running_loss_not_windowed_mean :
  exists s L calls,
    train_online (H := toy) 2 32 (Some []) (Some 5%Q) "global_norm" 100
      "flow" [1%Q; 3%Q] = Ok s /\
    losses s !! "loss" = Some L /\
    p_bar s = Some calls /\
    ~ reports_windowed_mean 100 L calls.
Proof.
  eexists. eexists. eexists.
  split; [vm_compute; reflexivity|].
  split; [vm_compute; reflexivity|].
  split; [reflexivity|].
  intros Hclaim.
  destruct (Hclaim 2 3%Q (Finite 3%Q) (4 # 4)%Q) as (q & Hq & Hmean).
  - apply list_elem_of_In. simpl. auto.
  - injection Hq as <-. vm_compute in Hmean. discriminate Hmean.
Qed.

(** ** Diagnostics *)

Import Diagnostics.

Lemma draw_each_acc {A B} (f : A -> result B) (xs : list A) (acc : list B) :
  for_each (fun x panels => panel ← f x; Ok (panels ++ [panel])) xs acc
  = draw_each f xs ≫= fun l => Ok (acc ++ l).
Proof.
  unfold draw_each. revert acc.
  induction xs as [|x xs IH]; intros acc; simpl.
  - rewrite app_nil_r. reflexivity.
  - destruct (f x) as [b|e]; simpl; [|reflexivity].
    rewrite (IH (acc ++ [b])), (IH [b]).
    destruct (for_each _ xs []) as [l|e]; simpl; [|reflexivity].
    rewrite <- app_assoc. reflexivity.
Qed.

Lemma draw_each_cons {A B} (f : A -> result B) (x : A) (xs : list A) :
  draw_each f (x :: xs)
  = f x ≫= fun b => draw_each f xs ≫= fun l => Ok (b :: l).
Proof.
  unfold draw_each at 1. simpl.
  destruct (f x) as [b|e]; simpl; [|reflexivity].
  apply (draw_each_acc f xs [b]).
Qed.

Lemma draw_each_Ok {A B} (f : A -> result B) (xs : list A) (out : list B) :
  draw_each f xs = Ok out -> Forall2 (fun x b => f x = Ok b) xs out.
Proof.
  revert out. induction xs as [|x xs IH]; intros out.
  - intros [= <-]. constructor.
  - rewrite draw_each_cons. intros Hd. open_block. subst out.
    constructor; [assumption | apply IH; assumption].
Qed.

(** The loop raises what its first failing item raises. *)
Lemma draw_each_raise {A B} (f : A -> result B) (pre suf : list A) (x : A)
    (e : exn) :
  Forall (fun y => returns (f y)) pre ->
  f x = Raise e ->
  draw_each f (pre ++ x :: suf) = Raise e.
Proof.
  intros Hpre Hx. induction Hpre as [|y pre [b Hy] _ IH]; simpl.
  - rewrite draw_each_cons, Hx. reflexivity.
  - rewrite draw_each_cons, Hy. simpl. rewrite IH. reflexivity.
Qed.

(** The loop does not return when one of its items fails. *)
Lemma draw_each_fails {A B} (f : A -> result B) (xs : list A) (x : A) :
  x ∈ xs -> ~ returns (f x) -> ~ returns (draw_each f xs).
Proof.
  intros Hin Hx [out Hout]. apply draw_each_Ok in Hout.
  apply list_elem_of_lookup in Hin as [k Hk].
  destruct (Forall2_lookup_l _ _ _ _ _ Hout Hk) as (b & _ & Hb).
  apply Hx. exists b. exact Hb.
Qed.

Lemma ceil_div_covers (n d : nat) : (0 < d)%nat -> (n <= ceil_div n d * d)%nat.
Proof.
  intros Hd. unfold ceil_div.
  pose proof (Nat.div_mod_eq (n + d - 1) d) as E.
  pose proof (Nat.mod_upper_bound (n + d - 1) d) as U.
  nia.
Qed.

Lemma ceil_div_one (n : nat) : ceil_div n 1 = n.
Proof. unfold ceil_div. rewrite Nat.div_1_r. lia. Qed.

Lemma ceil_div_positive (n d : nat) :
  (0 < d)%nat -> (0 < n)%nat -> (0 < ceil_div n d)%nat.
Proof.
  intros Hd Hn. pose proof (ceil_div_covers n d Hd). nia.
Qed.

Lemma subplot_grid_Ok (n r c : nat) :
  subplot_grid n = Ok (r, c) ->
  r = ceil_div n 6 /\ c = ceil_div n r /\
  (0 < n)%nat /\ (0 < r)%nat /\ (0 < c)%nat /\ (n <= r * c)%nat.
Proof.
  unfold subplot_grid.
  destruct (Nat.eqb_spec (ceil_div n 6) 0) as [|Hr]; [discriminate|].
  intros [= <- <-].
  assert (Hn : (0 < n)%nat).
  { destruct n; [|lia]. exfalso. apply Hr. reflexivity. }
  assert (Hr' : (0 < ceil_div n 6)%nat) by lia.
  pose proof (ceil_div_covers n _ Hr') as Hcover.
  pose proof (ceil_div_positive n _ Hr' Hn).
  split; [reflexivity|]. split; [reflexivity|].
  split; [exact Hn|]. split; [exact Hr'|]. split; [assumption|].
  rewrite Nat.mul_comm. exact Hcover.
Qed.


Lemma bind_Ok_l {A B} (a : A) (f : A -> result B) : Ok a ≫= f = f a.
Proof. reflexivity. Qed.

Lemma bind_Raise_l {A B} (e : exn) (f : A -> result B) :
  Raise e ≫= f = Raise e.
Proof. reflexivity. Qed.

Lemma not_returns_Raise {A} (e : exn) : ~ returns (@Raise A e).
Proof. intros [a Ha]. discriminate. Qed.

Lemma column_Ok {T} (a : array2 T) (i : nat) :
  (i < cols a)%nat ->
  column a i = Ok {| len := rows a; at1 := fun r => at2 a r i |}.
Proof.
  intros Hi. unfold column. destruct (Nat.ltb_spec i (cols a)); [reflexivity|lia].
Qed.


Lemma amin_returns (a : array1 pyfloat) : (0 < len a)%nat -> returns (amin a).
Proof.
  intros Hl. unfold amin, entries.
  destruct (len a) as [|k]; [lia|]. simpl. eexists. reflexivity.
Qed.

Lemma amax_returns (a : array1 pyfloat) : (0 < len a)%nat -> returns (amax a).
Proof.
  intros Hl. unfold amax, entries.
  destruct (len a) as [|k]; [lia|]. simpl. eexists. reflexivity.
Qed.

Lemma index_returns {V} (l : list V) (i : nat) :
  (i < length l)%nat -> returns (index l i).
Proof.
  intros Hi. unfold index.
  destruct (lookup_lt_is_Some_2 l i Hi) as [v ->]. eexists. reflexivity.
Qed.

Lemma length_default_names (prefix : string) (n : nat) :
  length (default_names prefix n) = n.
Proof. unfold default_names. rewrite length_map, length_seq. reflexivity. Qed.

(** *** plot_recovery *)
















(** Line 66 calls [uncertainty_agg] whatever it is: with [None], which the
    docstring allows, the call raises a type error before the grid is laid
    out. *)
Example recovery_none_uncertainty_type_error :
  plot_recovery (full3 3 5 7 (Finite 0)) (full2 3 7 (Finite 1))
    np_mean_axis1 None None true true = Raise TypeError.
Proof. reflexivity. Qed.

Lemma column_inv {T} (a : array2 T) (i : nat) (x : array1 T) :
  column a i = Ok x ->
  (i < cols a)%nat /\ x = {| len := rows a; at1 := fun r => at2 a r i |}.
Proof.
  unfold column. destruct (Nat.ltb_spec i (cols a)); [|discriminate].
  intros [= <-]. split; [assumption | reflexivity].
Qed.



Lemma subplot_grid_returns (n : nat) :
  (0 < n)%nat -> exists r c, subplot_grid n = Ok (r, c).
Proof.
  intros Hn. unfold subplot_grid.
  pose proof (ceil_div_positive n 6 ltac:(lia) Hn).
  destruct (Nat.eqb_spec (ceil_div n 6) 0); [lia|]. eauto.
Qed.

Lemma draw_each_returns {A B} (f : A -> result B) (xs : list A) :
  Forall (fun x => returns (f x)) xs -> returns (draw_each f xs).
Proof.
  induction 1 as [|x xs [b Hb] _ [l Hl]].
  - exists []. reflexivity.
  - exists (b :: l). rewrite draw_each_cons, Hb, bind_Ok_l, Hl. reflexivity.
Qed.


(** What the cell of a parameter shows when it is drawn. *)
Lemma recovery_cell_inv prior est u names ac ar (i : nat) panel :
  recovery_cell prior est u names ac ar i = Ok panel ->
  (i < cols prior)%nat /\ (0 < rows prior)%nat /\
  truth panel = {| len := rows prior; at1 := fun r => at2 prior r i |} /\
  estimate panel = {| len := rows est; at1 := fun r => at2 est r i |} /\
  yerr panel = {| len := rows u; at1 := fun r => at2 u r i |} /\
  names !! i = Some (recovery_title panel) /\
  with_r2 panel = ar /\ with_corr panel = ac.
Proof.
  unfold recovery_cell. intros Hcell. open_block. subst panel. simpl.
  repeat match goal with
         | E : column _ _ = Ok _ |- _ => apply column_inv in E as [? ->]
         end.
  match goal with
  | E : amin {| len := rows prior; at1 := _ |} = Ok _ |- _ =>
      unfold amin, entries in E; simpl in E;
      destruct (rows prior) eqn:Hrows; [discriminate E|]
  end.
  match goal with
  | E : index names i = Ok _ |- _ =>
      unfold index in E; destruct (names !! i) eqn:Hname; [|discriminate E];
      injection E as <-
  end.
  repeat split; try assumption; try reflexivity. lia.
Qed.

Lemma subplots_flat_cells (r c : nat) axarr it :
  subplots r c = Ok axarr -> flat axarr = Ok it ->
  it = Flat (r * c) /\ (2 <= r * c)%nat.
Proof.
  unfold subplots.
  destruct (Nat.eqb_spec r 0); [discriminate|].
  destruct (Nat.eqb_spec c 0); [discriminate|]. simpl.
  destruct (Nat.eqb_spec r 1) as [->|]; destruct (Nat.eqb_spec c 1) as [->|];
    simpl; intros [= <-]; simpl; try discriminate; intros [= <-];
    (split; [f_equal; lia | nia]).
Qed.

(** What a call of [plot_recovery] that returns went through. *)
Lemma plot_recovery_inv post prior (point_agg : aggregator) uncertainty_agg
    names ac ar fig :
  plot_recovery post prior point_agg uncertainty_agg names ac ar = Ok fig ->
  exists agg est u r c,
    uncertainty_agg = Some agg /\
    point_agg post = Ok est /\ agg post = Ok u /\
    subplot_grid (cols prior) = Ok (r, c) /\
    (r * c)%nat = cols prior /\ (2 <= cols prior)%nat /\
    Forall2
      (fun i panel =>
         recovery_cell prior est u (names_used "p_" names (cols prior)) ac ar i
         = Ok panel)
      (seq 0 (cols prior)) fig.
Proof.
  unfold plot_recovery. intros Hp. open_block.
  destruct uncertainty_agg as [agg|]; [|discriminate].
  match goal with
  | Hs : subplots _ _ = Ok _, Hf : flat _ = Ok _ |- _ =>
      destruct (subplots_flat_cells _ _ _ _ Hs Hf) as [-> Hcells]
  end.
  apply draw_each_Ok in Hp.
  match goal with
  | Hg : subplot_grid _ = Ok (?r, ?c) |- _ =>
      pose proof (subplot_grid_Ok _ _ _ Hg) as (_ & _ & _ & _ & _ & Hcover);
      assert (Heq : (r * c)%nat = cols prior)
  end.
  { apply Nat.le_antisymm; [|exact Hcover].
    match goal with
    | |- (?k <= _)%nat =>
        destruct (Forall2_lookup_l _ _ _ (k - 1)%nat (k - 1)%nat Hp)
          as (panel & _ & Hcell); [apply lookup_seq; lia|]
    end.
    apply recovery_cell_inv in Hcell as (Hlt & _). lia. }
  do 5 eexists. do 4 (split; [first [reflexivity | eassumption]|]).
  split; [exact Heq|]. split; [lia|].
  rewrite Heq in Hp. exact Hp.
Qed.





(** *** plot_calibration_curves *)

(** With two models or more, [ax] is an array of axes or its flat
    iterator: it can be subscripted at 0 and has no [set_title]. *)
Lemma calibration_axes (n r c : nat) :
  (2 <= n)%nat -> subplot_grid n = Ok (r, c) ->
  exists axarr ax,
    subplots r c = Ok axarr /\
    (if (1 <? r)%nat then flat axarr else Ok axarr) = Ok ax /\
    subscript ax 0 = Ok 0%nat /\
    set_title_method ax = Raise AttributeError.
Proof.
  intros Hn Hg.
  apply subplot_grid_Ok in Hg as (Hr & Hc & _ & Hr0 & Hc0 & Hcover).
  unfold subplots.
  destruct (Nat.eqb_spec r 0); [lia|].
  destruct (Nat.eqb_spec c 0); [lia|]. simpl.
  destruct (Nat.eqb_spec r 1) as [R1|R1].
  - assert (c = n) by (rewrite Hc, R1; apply ceil_div_one).
    destruct (Nat.eqb_spec c 1); [lia|]. simpl.
    destruct (Nat.ltb_spec 1 r); [lia|].
    exists (Array1 c), (Array1 c). repeat split.
    simpl. destruct (Nat.ltb_spec 0 c); [reflexivity | lia].
  - simpl. destruct (Nat.ltb_spec 1 r); [|lia].
    destruct (Nat.eqb_spec c 1).
    + exists (Array1 r), (Flat r). repeat split.
      simpl. destruct (Nat.ltb_spec 0 r); [reflexivity | lia].
    + exists (Array2 r c), (Flat (r * c)). repeat split.
      simpl. destruct (Nat.ltb_spec 0 (r * c)); [reflexivity | nia].
Qed.

(** The first pass through the loop does not get past [ax.set_title]. *)
Lemma calibration_cell_fails ax cal_errs cal_probs names :
  set_title_method ax = Raise AttributeError ->
  ~ returns (calibration_cell ax cal_errs cal_probs names 0).
Proof.
  intros Hax [panel Hp]. unfold calibration_cell in Hp. open_block.
  congruence.
Qed.

Lemma calibration_cell_attribute_error ax cal_errs cal_probs names :
  subscript ax 0 = Ok 0%nat ->
  set_title_method ax = Raise AttributeError ->
  calibration_output_per_model (S (length cal_errs - 1)) cal_errs cal_probs ->
  calibration_cell ax cal_errs cal_probs names 0 = Raise AttributeError.
Proof.
  intros Hsub Hax (He & Hp & Hpairs). unfold calibration_cell.
  rewrite Hsub, bind_Ok_l.
  destruct cal_probs as [|curve cal_probs]; [discriminate Hp|].
  apply Forall_cons in Hpairs as [Hcurve _].
  destruct curve as [|acc [|conf rest]]; try discriminate Hcurve.
  destruct cal_errs as [|err cal_errs]; [discriminate He|].
  simpl. rewrite Hax. reflexivity.
Qed.

(** C9. With two models or more, [plot_calibration_curves] does not return
    a figure, whatever the calibration-error utility does; when that
    utility returns its per-model output, the call raises the attribute
    error of [ax.set_title], [ax] being the array of axes or its flat
    iterator, at the end of the first pass through the loop. *)
Theorem calibration_curves_attribute_error
    (expected_calibration_error :
       array2 pyfloat -> array2 pyfloat -> Z ->
       result (list Q * list (list (list Q))))
    (m_true m_pred : array2 pyfloat) (model_names : option (list string))
    (n_bins : Z) :
  (2 <= cols m_pred)%nat ->
  ~ returns (plot_calibration_curves expected_calibration_error
               m_true m_pred model_names n_bins) /\
  forall cal_errs cal_probs,
    expected_calibration_error m_true m_pred n_bins
    = Ok (cal_errs, cal_probs) ->
    calibration_output_per_model (cols m_pred) cal_errs cal_probs ->
    plot_calibration_curves expected_calibration_error
      m_true m_pred model_names n_bins = Raise AttributeError.
Proof.
  intros Hn.
  destruct (subplot_grid_returns (cols m_pred)) as (r & c & Hg); [lia|].
  destruct (calibration_axes _ _ _ Hn Hg)
    as (axarr & ax & Hsubplots & Hax & Hsub & Htitle).
  assert (Hseq : seq 0 (cols m_pred) = 0%nat :: seq 1 (cols m_pred - 1)).
  { destruct (cols m_pred) as [|k]; [lia|]. simpl.
    rewrite Nat.sub_0_r. reflexivity. }
  unfold plot_calibration_curves. rewrite Hg, bind_Ok_l.
  split.
  - destruct (expected_calibration_error m_true m_pred n_bins)
      as [[cal_errs cal_probs]|e]; [|apply not_returns_Raise].
    rewrite bind_Ok_l, Hsubplots, bind_Ok_l, Hax, bind_Ok_l.
    apply (draw_each_fails _ _ 0%nat).
    + rewrite Hseq. apply list_elem_of_here.
    + apply calibration_cell_fails. exact Htitle.
  - intros cal_errs cal_probs -> Hout.
    rewrite bind_Ok_l, Hsubplots, bind_Ok_l, Hax, bind_Ok_l, Hseq.
    apply (draw_each_raise _ []); [constructor|].
    apply calibration_cell_attribute_error; try assumption.
    destruct Hout as (He & Hp & Hpairs).
    replace (S (length cal_errs - 1)) with (cols m_pred) by lia.
    repeat split; assumption.
Qed.

Lemma calibration_curves_attribute_error_witness :
  ~ returns (plot_calibration_curves constant_calibration
               (full2 4 3 (Finite 0)) (full2 4 3 (Finite (1 # 3))) None 10) /\
  forall cal_errs cal_probs,
    constant_calibration (full2 4 3 (Finite 0)) (full2 4 3 (Finite (1 # 3))) 10
    = Ok (cal_errs, cal_probs) ->
    calibration_output_per_model
      (cols (full2 4 3 (Finite (1 # 3)))) cal_errs cal_probs ->
    plot_calibration_curves constant_calibration
      (full2 4 3 (Finite 0)) (full2 4 3 (Finite (1 # 3))) None 10
    = Raise AttributeError.
Proof.
  apply (calibration_curves_attribute_error constant_calibration
           (full2 4 3 (Finite 0)) (full2 4 3 (Finite (1 # 3))) None 10).
  simpl. lia.
Defined.

(** On that example the utility's output is per model, and the call
    raises. *)
Example calibration_curves_three_models :
  calibration_output_per_model 3
    (replicate 3 (1 # 10)%Q) (replicate 3 [[(1 # 2)%Q]; [(1 # 2)%Q]]) /\
  plot_calibration_curves constant_calibration
    (full2 4 3 (Finite 0)) (full2 4 3 (Finite (1 # 3))) None 10
  = Raise AttributeError.
Proof.
  split; [|reflexivity].
  repeat split. repeat constructor.
Qed.

(** *** plot_sbc *)

Lemma broadcast_dim_same (n : nat) : broadcast_dim n n = Ok n.
Proof. unfold broadcast_dim. rewrite Nat.eqb_refl. reflexivity. Qed.

Lemma broadcast_dim_one (n : nat) : broadcast_dim n 1 = Ok n.
Proof.
  unfold broadcast_dim.
  destruct (Nat.eqb_spec n 1) as [->|]; [reflexivity|].
  reflexivity.
Qed.

Lemma stretch_inside (n i : nat) : (i < n)%nat -> stretch n i = i.
Proof.
  intros Hi. unfold stretch. destruct (Nat.eqb_spec n 1); [lia | reflexivity].
Qed.

(** Summing the truth values of a test counts the items that pass it. *)
Lemma sum_indicator {A} (test : A -> bool) (l : list A) :
  fold_right Z.add 0 (map (fun x => if test x then 1 else 0) l)
  = Z.of_nat (length (List.filter test l)).
Proof.
  induction l as [|x l IH]; simpl; [reflexivity|].
  rewrite IH. destruct (test x); simpl length; lia.
Qed.

Lemma length_filter_le {A} (test : A -> bool) (l : list A) :
  (length (List.filter test l) <= length l)%nat.
Proof.
  induction l as [|x l IH]; simpl; [lia|]. destruct (test x); simpl; lia.
Qed.

Lemma filter_ext_seq (f g : nat -> bool) (n : nat) :
  (forall m, (m < n)%nat -> f m = g m) ->
  List.filter f (seq 0 n) = List.filter g (seq 0 n).
Proof.
  intros Hfg. apply List.filter_ext_in. intros m Hm.
  apply in_seq in Hm. apply Hfg. lia.
Qed.

(** Line 176 on arrays of the documented shapes. *)
Lemma sbc_ranks_spec post prior :
  dim0 post = rows prior -> dim2 post = cols prior ->
  exists ranks,
    sbc_ranks post prior = Ok ranks /\
    rows ranks = dim0 post /\ cols ranks = dim2 post /\
    forall i j, (i < dim0 post)%nat -> (j < dim2 post)%nat ->
      at2 ranks i j = Z.of_nat (draws_below post prior i j).
Proof.
  intros H0 H2. unfold sbc_ranks, less_broadcast.
  rewrite <- H0, <- H2, !broadcast_dim_same, broadcast_dim_one.
  rewrite !bind_Ok_l. eexists. split; [reflexivity|]. simpl.
  split; [reflexivity|]. split; [reflexivity|].
  intros i j Hi Hj. rewrite sum_indicator. unfold draws_below.
  f_equal. f_equal. apply filter_ext_seq. intros m Hm.
  rewrite !stretch_inside by assumption. reflexivity.
Qed.

Lemma draws_below_bound post prior (i j : nat) :
  (draws_below post prior i j <= dim1 post)%nat.
Proof.
  unfold draws_below.
  pose proof (length_filter_le
                (fun m => float_ltb (at3 post i m j) (at2 prior i j))
                (seq 0 (dim1 post))) as Hle.
  rewrite length_seq in Hle. exact Hle.
Qed.

(** What a successful [plot_sbc] drew on its panels. *)
Lemma plot_sbc_panels binom_interval post prior names num_bins ci fig :
  plot_sbc binom_interval post prior names num_bins ci = Ok fig ->
  exists ranks p,
    sbc_ranks post prior = Ok ranks /\
    true_div 1 (num_bins + 1) = Ok p /\
    forall j panel, fig !! j = Some panel ->
      (j < cols ranks)%nat /\
      histogram panel = {| len := rows ranks; at1 := fun r => at2 ranks r j |} /\
      band panel = binom_interval ci (Z.of_nat (rows prior)) p /\
      bins panel = num_bins.
Proof.
  unfold plot_sbc, interval_arguments. intros Hp. open_block. subst.
  eexists. eexists. split; [eassumption|]. split; [eassumption|].
  apply draw_each_Ok in Hp.
  intros j panel Hj.
  destruct (Forall2_lookup_r _ _ _ _ _ Hp Hj) as (k & Hk & Hcell).
  apply lookup_seq in Hk as [-> _]. simpl in Hcell.
  unfold sbc_cell in Hcell. open_block. subst panel. simpl.
  match goal with
  | E : column ?a j = Ok ?y |- _ => apply column_inv in E as [Hlt ->]
  end.
  split; [assumption|]. repeat split.
Qed.

(** C3. On arrays of the documented shapes ([post_samples] of shape
    (N, M, P), [prior_samples] of shape (N, P)) line 176 computes, for every
    dataset [i] and parameter [j], the number of posterior draws strictly
    below the prior value, a number between 0 and the number M of draws;
    and these are the ranks a returned figure shows in the histogram of
    each parameter. *)
Theorem sbc_rank_statistic post prior :
  dim0 post = rows prior -> dim2 post = cols prior ->
  exists ranks,
    sbc_ranks post prior = Ok ranks /\
    rows ranks = dim0 post /\ cols ranks = dim2 post /\
    (forall i j, (i < dim0 post)%nat -> (j < dim2 post)%nat ->
       at2 ranks i j = Z.of_nat (draws_below post prior i j) /\
       0 <= at2 ranks i j <= Z.of_nat (dim1 post)) /\
    forall binom_interval names num_bins ci fig,
      plot_sbc binom_interval post prior names num_bins ci = Ok fig ->
      forall j panel, fig !! j = Some panel ->
        (j < dim2 post)%nat /\
        len (histogram panel) = dim0 post /\
        forall i, (i < dim0 post)%nat ->
          at1 (histogram panel) i = Z.of_nat (draws_below post prior i j).
Proof.
  intros H0 H2.
  destruct (sbc_ranks_spec post prior H0 H2)
    as (ranks & Hranks & Hrows & Hcols & Hat).
  exists ranks. do 3 (split; [assumption|]). split.
  - intros i j Hi Hj. rewrite (Hat i j Hi Hj).
    pose proof (draws_below_bound post prior i j). split; [reflexivity | lia].
  - intros binom_interval names num_bins ci fig Hfig j panel Hj.
    apply plot_sbc_panels in Hfig as (ranks' & p & Hranks' & _ & Hpanels).
    rewrite Hranks in Hranks'. injection Hranks' as <-.
    destruct (Hpanels j panel Hj) as (Hlt & -> & _). simpl.
    split; [lia|]. split; [assumption|].
    intros i Hi. apply Hat; [assumption | lia].
Qed.

Lemma sbc_rank_statistic_witness :
  exists ranks,
    sbc_ranks three_draws (full2 2 2 (Finite 2)) = Ok ranks /\
    rows ranks = dim0 three_draws /\ cols ranks = dim2 three_draws /\
    (forall i j, (i < dim0 three_draws)%nat -> (j < dim2 three_draws)%nat ->
       at2 ranks i j
       = Z.of_nat (draws_below three_draws (full2 2 2 (Finite 2)) i j) /\
       0 <= at2 ranks i j <= Z.of_nat (dim1 three_draws)) /\
    forall binom_interval names num_bins ci fig,
      plot_sbc binom_interval three_draws (full2 2 2 (Finite 2))
        names num_bins ci = Ok fig ->
      forall j panel, fig !! j = Some panel ->
        (j < dim2 three_draws)%nat /\
        len (histogram panel) = dim0 three_draws /\
        forall i, (i < dim0 three_draws)%nat ->
          at1 (histogram panel) i
          = Z.of_nat (draws_below three_draws (full2 2 2 (Finite 2)) i j).
Proof.
  apply (sbc_rank_statistic three_draws (full2 2 2 (Finite 2)));
    reflexivity.
Defined.

(** The ranks of that example: two draws of dataset 0 lie below 2 for
    parameter 0, one for parameter 1 and for dataset 1, none for both. *)
Example three_draws_ranks :
  exists ranks,
    sbc_ranks three_draws (full2 2 2 (Finite 2)) = Ok ranks /\
    (at2 ranks 0 0, at2 ranks 0 1, at2 ranks 1 0, at2 ranks 1 1)
    = (2, 1, 1, 0).
Proof. eexists. split; reflexivity. Qed.

(** Every panel of a returned figure carries the interval [binom.interval]
    gives for the confidence passed in, as many trials as there are
    datasets, and the success probability [1 / (num_bins + 1)]. *)
Lemma plot_sbc_band binom_interval post prior names num_bins ci fig :
  plot_sbc binom_interval post prior names num_bins ci = Ok fig ->
  num_bins + 1 <> 0 /\
  forall j panel, fig !! j = Some panel ->
    bins panel = num_bins /\
    band panel
    = binom_interval ci (Z.of_nat (rows prior))
        (inject_Z 1 / inject_Z (num_bins + 1))%Q.
Proof.
  intros Hfig.
  apply plot_sbc_panels in Hfig as (ranks & p & _ & Hp & Hpanels).
  unfold true_div in Hp.
  destruct (Z.eqb_spec (num_bins + 1) 0); [discriminate|].
  injection Hp as <-. split; [assumption|].
  intros j panel Hj. destruct (Hpanels j panel Hj) as (_ & _ & Hband & Hbins).
  split; assumption.
Qed.

(** C4, on the code. With the default ten bins, a hundred datasets and the
    default confidence of 0.95, [binom.interval] is called with the success
    probability 1/11: the band drawn over the ten-bin histograms runs from
    4 to 15, while the central interval for the per-bin probability 1/10
    runs from 5 to 16. *)
Theorem sbc_band_at_ten_bins :
  interval_arguments (95 # 100) (full2 100 2 (Finite 0)) 10
  = Ok ((95 # 100)%Q, 100, (1 # 11)%Q) /\
  (exists fig,
      plot_sbc binom_interval_exact (full3 100 20 2 (Finite 0))
        (full2 100 2 (Finite 0)) None 10 (95 # 100) = Ok fig /\
      length fig = 2%nat /\
      Forall (fun panel =>
                bins panel = 10 /\ band panel = (inject_Z 4, inject_Z 15))
        fig) /\
  binom_interval_exact (95 # 100) 100 (1 # 10) = (inject_Z 5, inject_Z 16).
Proof.
  split; [reflexivity|]. split.
  - eexists. split; [vm_compute; reflexivity|].
    split; [reflexivity|]. repeat constructor.
  - vm_compute. reflexivity.
Qed.

(** ** Gradient clipping *)

Section ClippingProofs.

Import Clipping.
Local Open Scope R_scope.

Lemma sum_of_squares_nonneg (g : list R) : 0 <= sum_of_squares g.
Proof.
  induction g as [|x g IH]; simpl; [lra|].
  pose proof (Rle_0_sqr x) as Hx. unfold Rsqr in Hx. lra.
Qed.

Lemma sum_of_squares_scale (k : R) (g : list R) :
  sum_of_squares (map (fun x => x * k) g) = k * k * sum_of_squares g.
Proof.
  induction g as [|x g IH]; simpl; [lra|]. rewrite IH. lra.
Qed.

Lemma global_norm_nonneg (g : list R) : 0 <= global_norm g.
Proof. apply sqrt_pos. Qed.

(** Scaling a vector by a non-negative factor scales its norm. *)
Lemma global_norm_scale (k : R) (g : list R) :
  0 <= k -> global_norm (map (fun x => x * k) g) = k * global_norm g.
Proof.
  intros Hk. unfold global_norm. rewrite sum_of_squares_scale.
  rewrite sqrt_mult_alt by nra.
  rewrite sqrt_square by exact Hk. reflexivity.
Qed.

(** C6. For the method ["global_norm"] and a threshold that can be a norm
    (not negative): when the global norm of the gradients exceeds
    [clip_value], the clipped gradients have global norm [clip_value]; when
    it is below [clip_value], the gradients come back unchanged. *)
Theorem global_norm_clipping (gradients : list R) (clip_value : R) :
  0 <= clip_value ->
  (global_norm gradients > clip_value ->
   exists clipped,
     clip_gradients gradients clip_value "global_norm" = Some clipped /\
     global_norm clipped = clip_value) /\
  (global_norm gradients < clip_value ->
   clip_gradients gradients clip_value "global_norm" = Some gradients).
Proof.
  intros Hc. unfold clip_gradients. simpl. split.
  - intros Hgt.
    destruct (Rle_dec (global_norm gradients) clip_value) as [Hle|_]; [lra|].
    eexists. split; [reflexivity|].
    rewrite global_norm_scale.
    + field. lra.
    + unfold Rdiv. apply Rmult_le_pos; [exact Hc|].
      left. apply Rinv_0_lt_compat. lra.
  - intros Hlt.
    destruct (Rle_dec (global_norm gradients) clip_value) as [_|Hn];
      [reflexivity | lra].
Qed.

Lemma global_norm_3_4 : global_norm [3; 4] = 5.
Proof.
  unfold global_norm. simpl.
  replace (3 * 3 + (4 * 4 + 0)) with (5 * 5) by lra.
  apply sqrt_square. lra.
Qed.

Lemma global_norm_clipping_witness :
  global_norm [3; 4] > 1 /\
  exists clipped,
    clip_gradients [3; 4] 1 "global_norm" = Some clipped /\
    global_norm clipped = 1.
Proof.
  assert (Hgt : global_norm [3; 4] > 1) by (rewrite global_norm_3_4; lra).
  split; [exact Hgt|].
  apply (proj1 (global_norm_clipping [3; 4] 1 ltac:(lra))). exact Hgt.
Defined.

End ClippingProofs.

(** * Further properties of the training loops *)

Section TrainingEdges.

Context `{Collaborators Env Tensor Grads}.

Lemma range_empty (lo hi : Z) : hi <= lo -> range lo hi = [].
Proof.
  intros Hle. unfold range. replace (Z.to_nat (hi - lo)) with 0%nat by lia.
  reflexivity.
Qed.

Lemma range_snoc (lo hi : Z) :
  lo <= hi -> range lo (hi + 1) = range lo hi ++ [hi].
Proof.
  intros Hle. unfold range.
  replace (Z.to_nat (hi + 1 - lo)) with (S (Z.to_nat (hi - lo))) by lia.
  rewrite seq_S, map_app. simpl. do 2 f_equal. lia.
Qed.

Lemma range_cons (lo hi : Z) :
  lo < hi -> range lo hi = lo :: range (lo + 1) hi.
Proof.
  intros Hlt. unfold range.
  replace (Z.to_nat (hi - lo)) with (S (Z.to_nat (hi - (lo + 1)))) by lia.
  simpl. f_equal; [lia|].
  rewrite <- seq_shift, map_map. apply map_ext. intros k. lia.
Qed.

(** X1. A call with nothing to iterate over returns at once: [train_online]
    with an iteration count of zero or less, and [train_offline] on an
    empty dataset, return the two empty histories, having touched neither
    the environment nor the progress bar. *)
Theorem nothing_to_iterate :
  (forall iterations bs pb cv cm ns method (e : Env),
      iterations <= 0 ->
      exists s,
        train_online iterations bs pb cv cm ns method e = Ok s /\
        losses s !! "loss" = Some [] /\
        losses s !! "regularization" = Some [] /\
        env s = e /\ p_bar s = pb /\ steps s = []) /\
  (forall pb cv cm method (e : Env),
      exists s,
        train_offline (Tensor := Tensor) [] pb cv cm method e = Ok s /\
        losses s !! "loss" = Some [] /\
        losses s !! "regularization" = Some [] /\
        env s = e /\ p_bar s = pb /\ steps s = []).
Proof.
  split.
  - intros iterations bs pb cv cm ns method e Hle.
    exists (initial_state e pb). unfold train_online.
    rewrite range_empty by lia. repeat split.
  - intros pb cv cm method e.
    exists (initial_state e pb). repeat split.
Qed.

(** X2. Iterations compose: a run of [n + 1] iterations is the run of [n]
    iterations followed by iteration [n + 1] on the state it reached, so it
    raises when the shorter run does, and otherwise its histories are those
    of the shorter run with one more entry each. *)
Theorem one_more_iteration (n : Z) bs pb cv cm ns method (e : Env) :
  0 <= n ->
  train_online (n + 1) bs pb cv cm ns method e
  = train_online n bs pb cv cm ns method e
      ≫= online_iteration bs cv cm ns method (n + 1) /\
  forall s s',
    train_online n bs pb cv cm ns method e = Ok s ->
    train_online (n + 1) bs pb cv cm ns method e = Ok s' ->
    exists L R loss w,
      losses s !! "loss" = Some L /\
      losses s !! "regularization" = Some R /\
      losses s' !! "loss" = Some (L ++ [loss]) /\
      losses s' !! "regularization" = Some (R ++ [w]).
Proof.
  intros Hn.
  assert (Heq : train_online (n + 1) bs pb cv cm ns method e
                = train_online n bs pb cv cm ns method e
                    ≫= online_iteration bs cv cm ns method (n + 1)).
  { unfold train_online. rewrite (range_snoc 1 (n + 1)) by lia.
    rewrite for_each_app.
    destruct (for_each _ (range 1 (n + 1)) _) as [s|err]; simpl;
      [|reflexivity].
    destruct (online_iteration bs cv cm ns method (n + 1) s); reflexivity. }
  split; [exact Heq|].
  intros s s' Hs Hs'. rewrite Heq, Hs in Hs'. simpl in Hs'.
  apply train_online_history in Hs as (L & R & HL & HR & _).
  apply online_iteration_inv in Hs'
    as (loss & w & bp & d1 & h & _ & _ & H1 & H2 & _).
  destruct (store_losses _ _ _ _ _ _ _ HL HR H1 H2) as (HL' & HR' & _).
  exists L, R, loss, w. repeat split; assumption.
Qed.

Lemma getitem_None {V} (d : gmap string V) (k : string) :
  d !! k = None -> getitem d k = Raise (KeyError k).
Proof. intros Hk. unfold getitem. rewrite Hk. reflexivity. Qed.

(** X3. A batch without the key the mode needs ends the call with that
    [KeyError] in the first iteration: ["theta"] is looked up first in flow
    mode, ["x"] alone in the other modes. *)
Theorem missing_batch_key iterations bs pb cv cm ns method (e e1 : Env)
    (batch : gmap string Tensor) :
  1 <= iterations ->
  data_gen bs e = Ok (batch, e1) ->
  (method = "flow" -> batch !! "theta" = None ->
   train_online iterations bs pb cv cm ns method e = Raise (KeyError "theta"))
  /\
  (method <> "flow" -> batch !! "x" = None ->
   train_online iterations bs pb cv cm ns method e = Raise (KeyError "x")).
Proof.
  intros Hit Hgen. unfold train_online.
  rewrite (range_cons 1) by lia. cbn [for_each].
  split.
  - intros -> Hnone. unfold online_iteration at 1.
    cbn [env initial_state]. rewrite Hgen, bind_Ok_l. cbn [String.eqb].
    simpl. rewrite (getitem_None batch "theta") by exact Hnone. reflexivity.
  - intros Hm Hnone. unfold online_iteration at 1.
    cbn [env initial_state]. rewrite Hgen, bind_Ok_l.
    destruct (String.eqb_spec method "flow") as [|_]; [contradiction|].
    rewrite (getitem_None batch "x") by exact Hnone. reflexivity.
Qed.

End TrainingEdges.

Lemma one_more_iteration_witness :
  train_online (H := toy) (2 + 1) 32 None None "global_norm" 100 "flow"
    [1%Q; 3%Q; 8%Q]
  = train_online (H := toy) 2 32 None None "global_norm" 100 "flow"
      [1%Q; 3%Q; 8%Q]
      ≫= online_iteration (H := toy) 32 None "global_norm" 100 "flow" (2 + 1)
  /\
  forall s s',
    train_online (H := toy) 2 32 None None "global_norm" 100 "flow"
      [1%Q; 3%Q; 8%Q] = Ok s ->
    train_online (H := toy) (2 + 1) 32 None None "global_norm" 100 "flow"
      [1%Q; 3%Q; 8%Q] = Ok s' ->
    exists L R loss w,
      losses s !! "loss" = Some L /\
      losses s !! "regularization" = Some R /\
      losses s' !! "loss" = Some (L ++ [loss]) /\
      losses s' !! "regularization" = Some (R ++ [w]).
Proof.
  apply (@one_more_iteration _ _ _ toy 2 32 None None "global_norm" 100
           "flow" [1%Q; 3%Q; 8%Q]).
  lia.
Defined.

Lemma missing_batch_key_witness :
  train_online (H := toy_without_theta) 5 32 None None "global_norm" 100
    "flow" [] = Raise (KeyError "theta").
Proof.
  apply (proj1 (@missing_batch_key _ _ _ toy_without_theta
                  5 32 None None "global_norm" 100 "flow" [] []
                  (<["x" := 0%Q]> ∅) ltac:(lia) eq_refl));
    reflexivity.
Defined.

Lemma nothing_to_iterate_witness :
  exists s,
    train_online (H := toy) (-3) 32 (Some []) (Some 5%Q) "global_norm" 100
      "flow" [1%Q] = Ok s /\
    losses s !! "loss" = Some [] /\
    losses s !! "regularization" = Some [] /\
    env s = [1%Q] /\ p_bar s = Some [] /\ steps s = [].
Proof.
  apply (proj1 (@nothing_to_iterate _ _ _ toy)
           (-3) 32 (Some []) (Some 5%Q) "global_norm" 100 "flow" [1%Q]).
  lia.
Defined.

Section TrainingOffline.

Context `{Collaborators Env Tensor Grads}.

Lemma index_out_of_range {V} (l : list V) (i : nat) :
  (length l <= i)%nat -> index l i = Raise IndexError.
Proof.
  intros Hi. unfold index. rewrite lookup_ge_None_2 by exact Hi. reflexivity.
Qed.

(** X4. [train_offline] unpacks each batch by position: in flow mode a
    first batch with fewer than two components, and in the other modes an
    empty first batch, end the call with an [IndexError]. *)
Theorem short_batch (batch : list Tensor) (rest : list (list Tensor))
    pb cv cm method (e : Env) :
  (method = "flow" -> (length batch < 2)%nat ->
   train_offline (batch :: rest) pb cv cm method e = Raise IndexError) /\
  (method <> "flow" -> batch = [] ->
   train_offline (batch :: rest) pb cv cm method e = Raise IndexError).
Proof.
  unfold train_offline, enumerate. cbn [imap for_each].
  unfold offline_iteration at 1 3. split.
  - intros -> Hlen. cbn [String.eqb]. simpl.
    destruct batch as [|b0 [|b1 batch]]; simpl in Hlen; try lia; reflexivity.
  - intros Hm ->.
    destruct (String.eqb_spec method "flow") as [|_]; [contradiction|].
    reflexivity.
Qed.

Lemma offline_reports_snoc (L R : list Q) (loss w : Q) :
  length L = length R ->
  offline_reports (L ++ [loss]) (R ++ [w])
  = offline_reports L R
    ++ [SetPostfixOffline (Z.of_nat (length L)) loss w; Update 1].
Proof.
  intros Hlen. unfold offline_reports.
  rewrite zip_with_app by exact Hlen.
  rewrite imap_app, concat_app. simpl.
  rewrite length_zip_with, <- Hlen, Nat.min_id, Nat.add_0_r. reflexivity.
Qed.

(** X5. A run of [train_offline] that returns has made on the progress bar
    exactly one report and one [update(1)] per batch, in the order of the
    dataset, the reported batch index counting from zero and the reported
    loss and regularization being the entries recorded for that batch;
    without a progress bar, nothing is reported. *)
Theorem offline_progress (dataset : list (list Tensor)) pb cv cm method
    (e : Env) s :
  train_offline dataset pb cv cm method e = Ok s ->
  exists L R : list Q,
    losses s !! "loss" = Some L /\
    losses s !! "regularization" = Some R /\
    length L = length dataset /\ length R = length dataset /\
    p_bar s = (fun calls => calls ++ offline_reports L R) <$> pb.
Proof.
  unfold train_offline. intros Hrun.
  rewrite <- (length_enumerate dataset). revert Hrun.
  apply (for_each_invariant _
           (fun pre s =>
              exists L R : list Q,
                losses s !! "loss" = Some L /\
                losses s !! "regularization" = Some R /\
                length L = length pre /\ length R = length pre /\
                p_bar s = (fun calls => calls ++ offline_reports L R) <$> pb)).
  - intros pre [bi batch] suf s1 s2 Hpos
      (L & R & HL & HR & HlenL & HlenR & Hpb) Hbody.
    apply enumerate_position in Hpos.
    apply offline_iteration_inv in Hbody
      as (loss & w & bp & d1 & _ & _ & H1 & H2 & Hpb').
    destruct (store_losses _ _ _ _ _ _ _ HL HR H1 H2) as (HL' & HR' & _).
    exists (L ++ [loss]), (R ++ [w]).
    do 2 (split; [assumption|]).
    split; [rewrite !length_app; simpl; lia|].
    split; [rewrite !length_app; simpl; lia|].
    rewrite Hpb', Hpb, offline_reports_snoc by congruence.
    replace (Z.of_nat (length L)) with bi by lia.
    destruct pb as [calls|]; simpl; [|reflexivity].
    rewrite <- app_assoc. reflexivity.
  - exists [], []. repeat split. destruct pb; simpl; [|reflexivity].
    rewrite app_nil_r. reflexivity.
Qed.

End TrainingOffline.

Lemma short_batch_witness :
  train_offline (H := toy) [[1%Q]; [3%Q; 0%Q]] None None "global_norm" "flow"
    [] = Raise IndexError.
Proof.
  apply (proj1 (@short_batch _ _ _ toy [1%Q] [[3%Q; 0%Q]] None None
                  "global_norm" "flow" [])); [reflexivity | simpl; lia].
Defined.

Lemma offline_progress_witness :
  exists s,
    train_offline (H := toy) [[1%Q; 0%Q]; [3%Q; 0%Q]] (Some []) None
      "global_norm" "flow" [] = Ok s /\
    exists L R : list Q,
      losses s !! "loss" = Some L /\
      losses s !! "regularization" = Some R /\
      length L = 2%nat /\ length R = 2%nat /\
      p_bar s = (fun calls => calls ++ offline_reports L R) <$> Some [].
Proof.
  eexists. split; [vm_compute; reflexivity|].
  apply (@offline_progress _ _ _ toy [[1%Q; 0%Q]; [3%Q; 0%Q]] (Some []) None
           "global_norm" "flow" []).
  vm_compute; reflexivity.
Defined.

(** *** The running loss for any window *)

Lemma online_reports_with_ext (f g : Z -> Q -> pyfloat) (L R : list Q) :
  (forall it loss, 1 <= it <= Z.of_nat (length L) -> f it loss = g it loss) ->
  online_reports_with f L R = online_reports_with g L R.
Proof.
  intros Hfg. unfold online_reports_with. f_equal.
  apply imap_ext. intros k [l r] Hk. simpl.
  apply lookup_lt_Some in Hk. rewrite length_zip_with in Hk.
  rewrite Hfg by lia. reflexivity.
Qed.

Lemma online_reports_with_snoc (f : Z -> Q -> pyfloat) (L R : list Q)
    (loss w : Q) :
  length L = length R ->
  online_reports_with f (L ++ [loss]) (R ++ [w])
  = online_reports_with f L R
    ++ [SetPostfixOnline (Z.of_nat (length L) + 1) loss
          (f (Z.of_nat (length L) + 1) loss) w;
        Update 1].
Proof.
  intros Hlen. unfold online_reports_with.
  rewrite zip_with_app by exact Hlen.
  rewrite imap_app, concat_app. simpl.
  rewrite length_zip_with, <- Hlen, Nat.min_id, Nat.add_0_r. reflexivity.
Qed.

Lemma online_reports_with_elem (f : Z -> Q -> pyfloat) (L R : list Q)
    it loss running w :
  SetPostfixOnline it loss running w ∈ online_reports_with f L R ->
  1 <= it <= Z.of_nat (length L) /\ running = f it loss.
Proof.
  intros Hin. unfold online_reports_with in Hin.
  apply list_elem_of_In, in_concat in Hin as (block & Hblock & Hin).
  apply list_elem_of_In, elem_of_lookup_imap in Hblock
    as (k & [l r] & -> & Hk).
  apply lookup_lt_Some in Hk. rewrite length_zip_with in Hk.
  simpl in Hin. destruct Hin as [[= <- <- <- <-]|[Hin|[]]]; [|discriminate].
  split; [lia | reflexivity].
Qed.

Lemma running_loss_line86_snoc (ns : Z) (L : list Q) (x : Q) (it : Z) (l : Q) :
  it <= Z.of_nat (length L) ->
  running_loss_line86 ns (L ++ [x]) it l = running_loss_line86 ns L it l.
Proof.
  intros Hit. unfold running_loss_line86.
  rewrite take_snoc_stable by lia. reflexivity.
Qed.

(** Whatever the window, the reports are those of line 86. *)
Lemma train_online_reports_line86 `{Collaborators Env Tensor Grads}
    iterations bs pb cv cm ns method (e : Env) (s : loop_state Env Grads) :
  train_online iterations bs pb cv cm ns method e = Ok s ->
  exists L R : list Q,
    losses s !! "loss" = Some L /\
    losses s !! "regularization" = Some R /\
    length L = length R /\
    p_bar s =
      (fun calls =>
         calls ++ online_reports_with (running_loss_line86 ns L) L R)
        <$> pb.
Proof.
  unfold train_online. intros Hrun.
  assert (G : exists L R : list Q,
             losses s !! "loss" = Some L /\
             losses s !! "regularization" = Some R /\
             length L = length (range 1 (iterations + 1)) /\
             length R = length (range 1 (iterations + 1)) /\
             p_bar s =
               (fun calls =>
                  calls ++ online_reports_with (running_loss_line86 ns L) L R)
                 <$> pb).
  { revert Hrun.
    apply (for_each_invariant _
             (fun pre s =>
                exists L R : list Q,
                  losses s !! "loss" = Some L /\
                  losses s !! "regularization" = Some R /\
                  length L = length pre /\ length R = length pre /\
                  p_bar s =
                    (fun calls =>
                       calls
                       ++ online_reports_with (running_loss_line86 ns L) L R)
                      <$> pb)).
    - intros pre it suf s1 s2 Hpos
        (L & R & HL & HR & HlenL & HlenR & Hpb) Hbody.
      apply range_position in Hpos.
      apply online_iteration_inv in Hbody
        as (loss & w & bp & d1 & h & _ & _ & H1 & H2 & Hh & Hpb').
      destruct (store_losses _ _ _ _ _ _ _ HL HR H1 H2) as (HL' & HR' & _).
      rewrite HL' in Hh. injection Hh as <-.
      exists (L ++ [loss]), (R ++ [w]).
      do 2 (split; [assumption|]).
      split; [rewrite !length_app; simpl; lia|].
      split; [rewrite !length_app; simpl; lia|].
      rewrite Hpb', Hpb.
      rewrite online_reports_with_snoc by congruence.
      rewrite (online_reports_with_ext
                 (running_loss_line86 ns (L ++ [loss]))
                 (running_loss_line86 ns L) L R)
        by (intros; apply running_loss_line86_snoc; lia).
      replace (Z.of_nat (length L) + 1) with it by lia.
      assert (Hrun86 : running_loss_line86 ns (L ++ [loss]) it loss
                       = if it <? ns then Finite loss
                         else np_mean (slice_from (L ++ [loss]) (- ns))).
      { unfold running_loss_line86. rewrite take_ge; [reflexivity|].
        rewrite length_app. simpl. lia. }
      rewrite Hrun86.
      destruct pb as [calls|]; simpl; [|reflexivity].
      rewrite <- app_assoc. reflexivity.
    - exists [], []. repeat split. destruct pb; simpl; [|reflexivity].
      rewrite app_nil_r. reflexivity. }
  destruct G as (L & R & HL & HR & HlenL & HlenR & Hpb).
  exists L, R. repeat split; try assumption. congruence.
Qed.

Lemma slice_from_nonnegative {A} (l : list A) (k : Z) :
  0 <= k -> slice_from l k = drop (Z.to_nat k) l.
Proof.
  intros Hk. unfold slice_from.
  destruct (Z.ltb_spec k 0) as [|_]; [lia|].
  destruct (Z.le_gt_cases k (Z.of_nat (length l))) as [Hle|Hgt].
  - rewrite Z.min_l by exact Hle. reflexivity.
  - rewrite Z.min_r by lia. rewrite Nat2Z.id.
    rewrite !drop_ge by lia. reflexivity.
Qed.

(** X6. With a window of zero or less the guard [it < n_smooth] never
    holds: the running loss reported at iteration [it] is [np.mean] of the
    losses recorded so far without the first [-n_smooth] of them. For
    [n_smooth = 0] that is the mean of all losses so far; for a negative
    window it is [nan], the mean of no loss, during the first [-n_smooth]
    iterations. *)
Theorem nonpositive_window `{Collaborators Env Tensor Grads}
    iterations bs pb cv cm ns method (e : Env) s :
  ns <= 0 ->
  train_online iterations bs pb cv cm ns method e = Ok s ->
  exists (L R : list Q) (reports : list pbar_call),
    losses s !! "loss" = Some L /\
    losses s !! "regularization" = Some R /\
    p_bar s = (fun calls => calls ++ reports) <$> pb /\
    reports
    = online_reports_with
        (fun it _ => np_mean (drop (Z.to_nat (- ns)) (take (Z.to_nat it) L)))
        L R /\
    forall it loss running w,
      SetPostfixOnline it loss running w ∈ reports ->
      running = np_mean (drop (Z.to_nat (- ns)) (take (Z.to_nat it) L)) /\
      (it <= - ns -> running = NaN).
Proof.
  intros Hns Hrun.
  apply train_online_reports_line86 in Hrun as (L & R & HL & HR & Hlen & Hpb).
  exists L, R. eexists. do 2 (split; [assumption|]).
  split; [exact Hpb|].
  assert (Hext : online_reports_with (running_loss_line86 ns L) L R
                 = online_reports_with
                     (fun it _ =>
                        np_mean (drop (Z.to_nat (- ns)) (take (Z.to_nat it) L)))
                     L R).
  { apply online_reports_with_ext. intros it loss Hit.
    unfold running_loss_line86.
    destruct (Z.ltb_spec it ns) as [|_]; [lia|].
    rewrite slice_from_nonnegative by lia. reflexivity. }
  split; [exact Hext|].
  intros it loss running w Hin. rewrite Hext in Hin.
  apply online_reports_with_elem in Hin as [Hit ->].
  split; [reflexivity|].
  intros Hle. rewrite drop_ge; [reflexivity|]. rewrite length_take. lia.
Qed.

Lemma nonpositive_window_witness :
  exists s,
    train_online (H := toy) 3 32 (Some []) None "global_norm" (-1) "flow"
      [1%Q; 3%Q; 8%Q] = Ok s /\
    exists (L R : list Q) (reports : list pbar_call),
      losses s !! "loss" = Some L /\
      losses s !! "regularization" = Some R /\
      p_bar s = (fun calls => calls ++ reports) <$> Some [] /\
      reports
      = online_reports_with
          (fun it _ =>
             np_mean (drop (Z.to_nat (- -1)) (take (Z.to_nat it) L)))
          L R /\
      forall it loss running w,
        SetPostfixOnline it loss running w ∈ reports ->
        running = np_mean (drop (Z.to_nat (- -1)) (take (Z.to_nat it) L)) /\
        (it <= - -1 -> running = NaN).
Proof.
  eexists. split; [vm_compute; reflexivity|].
  apply (@nonpositive_window _ _ _ toy 3 32 (Some []) None "global_norm" (-1)
           "flow" [1%Q; 3%Q; 8%Q]); [lia | vm_compute; reflexivity].
Defined.

(** *** What the progress bar and the window do not change *)

Lemma for_each_related {A S} (body1 body2 : A -> S -> result S)
    (related : S -> S -> Prop) (xs : list A) :
  (forall x s1 s2 s1',
      related s1 s2 -> body1 x s1 = Ok s1' ->
      exists s2', body2 x s2 = Ok s2' /\ related s1' s2') ->
  forall s1 s2 s1',
    related s1 s2 -> for_each body1 xs s1 = Ok s1' ->
    exists s2', for_each body2 xs s2 = Ok s2' /\ related s1' s2'.
Proof.
  intros Hstep. induction xs as [|x xs IH]; intros s1 s2 s1' Hrel Hrun;
    simpl in *.
  - injection Hrun as <-. exists s2. split; [reflexivity | exact Hrel].
  - destruct (body1 x s1) as [t1|err] eqn:Hb; [|discriminate].
    destruct (Hstep x s1 s2 t1 Hrel Hb) as (t2 & -> & Hrel').
    apply (IH t1 t2 s1' Hrel' Hrun).
Qed.

Section TrainingIndependence.

Context `{Collaborators Env Tensor Grads}.

(** One iteration, from states that differ at most in the progress bar,
    with any two windows. *)
Lemma online_iteration_related bs cv cm ns1 ns2 method (it : Z)
    (s1 s2 s1' : loop_state Env Grads) :
  same_training s1 s2 ->
  online_iteration bs cv cm ns1 method it s1 = Ok s1' ->
  exists s2',
    online_iteration bs cv cm ns2 method it s2 = Ok s2' /\
    same_training s1' s2'.
Proof.
  intros (Henv & Hlosses & Hsteps) Hrun.
  unfold online_iteration in *. rewrite <- Henv, <- Hlosses, <- Hsteps.
  open_block. subst s1'.
  repeat match goal with
         | E : ?m = Ok _ |- context [?m] => rewrite E, ?bind_Ok_l
         | E : ?d !! ?k = Some _ |- context [getitem ?d ?k] =>
             apply getitem_Ok in E; rewrite E, ?bind_Ok_l
         end.
  cbv beta iota. eexists. split; [reflexivity|].
  repeat split.
Qed.

(** X7. The progress bar and the smoothing window only change what is
    reported: a run that returns with one progress bar and window returns
    with any other, with the same histories, the same backpropagation steps
    and the same final environment. *)
Theorem reporting_does_not_train iterations bs pb1 pb2 cv cm ns1 ns2 method
    (e : Env) s1 :
  train_online iterations bs pb1 cv cm ns1 method e = Ok s1 ->
  exists s2,
    train_online iterations bs pb2 cv cm ns2 method e = Ok s2 /\
    env s2 = env s1 /\ losses s2 = losses s1 /\ steps s2 = steps s1.
Proof.
  unfold train_online. intros Hrun.
  destruct (for_each_related
              (online_iteration bs cv cm ns1 method)
              (online_iteration bs cv cm ns2 method)
              same_training (range 1 (iterations + 1))
              (fun it t1 t2 t1' =>
                 online_iteration_related bs cv cm ns1 ns2 method it t1 t2 t1')
              (initial_state e pb1) (initial_state e pb2) s1)
    as (s2 & Hs2 & Henv & Hlosses & Hsteps);
    [repeat split | exact Hrun |].
  exists s2. repeat split; congruence.
Qed.

End TrainingIndependence.

Lemma reporting_does_not_train_witness :
  exists s1,
    train_online (H := toy) 3 32 (Some []) (Some 5%Q) "global_norm" 2 "flow"
      [1%Q; 3%Q; 8%Q] = Ok s1 /\
    exists s2,
      train_online (H := toy) 3 32 None (Some 5%Q) "global_norm" 100 "flow"
        [1%Q; 3%Q; 8%Q] = Ok s2 /\
      env s2 = env s1 /\ losses s2 = losses s1 /\ steps s2 = steps s1.
Proof.
  eexists. split; [vm_compute; reflexivity|].
  apply (@reporting_does_not_train _ _ _ toy 3 32 (Some []) None (Some 5%Q)
           "global_norm" 2 100 "flow" [1%Q; 3%Q; 8%Q]).
  vm_compute; reflexivity.
Defined.

(** * Further properties of the diagnostics *)

Lemma ceil_div_tight (n d : nat) :
  (0 < d)%nat -> (0 < n)%nat -> (ceil_div n d * d < n + d)%nat.
Proof.
  intros Hd Hn. unfold ceil_div.
  pose proof (Nat.div_mod_eq (n + d - 1) d) as E.
  nia.
Qed.

(** X8. The grid of subplots: none can be laid out for no parameter (the
    second division is by zero); otherwise the grid has [ceil(n / 6)] rows,
    at most six columns, a cell for every parameter and fewer spare cells
    than rows, and a single row exactly up to six parameters. *)
Theorem subplot_grid_layout (n : nat) :
  (n = 0%nat -> subplot_grid n = Raise ZeroDivisionError) /\
  ((0 < n)%nat ->
   exists r c,
     subplot_grid n = Ok (r, c) /\
     r = ceil_div n 6 /\ (1 <= c <= 6)%nat /\
     (n <= r * c < n + r)%nat /\
     (r = 1%nat <-> (n <= 6)%nat)).
Proof.
  split; [intros ->; reflexivity|].
  intros Hn.
  destruct (subplot_grid_returns n Hn) as (r & c & Hg).
  exists r, c. split; [exact Hg|].
  apply subplot_grid_Ok in Hg as (Hr & Hc & _ & Hr0 & Hc0 & Hcover).
  pose proof (ceil_div_covers n 6 ltac:(lia)) as H6. rewrite <- Hr in H6.
  pose proof (ceil_div_tight n 6 ltac:(lia) Hn) as T6. rewrite <- Hr in T6.
  pose proof (ceil_div_tight n r Hr0 Hn) as Tr. rewrite <- Hc in Tr.
  split; [exact Hr|]. split; [|split].
  - split; [lia|]. nia.
  - split; [exact Hcover | nia].
  - split; lia.
Qed.

Lemma subplot_grid_layout_witness :
  exists r c,
    subplot_grid 13 = Ok (r, c) /\
    r = ceil_div 13 6 /\ (1 <= c <= 6)%nat /\
    (13 <= r * c < 13 + r)%nat /\
    (r = 1%nat <-> (13 <= 6)%nat).
Proof.
  apply (proj2 (subplot_grid_layout 13)). lia.
Defined.

(** X9. A figure [plot_recovery] returns has exactly one panel per
    parameter, in the order of the parameters: panel [i] shows column [i]
    of the prior samples against column [i] of the point estimates with
    column [i] of the uncertainties as error bars, under the title
    [param_names[i]] ([p_1], [p_2], ... by default). There are then at
    least two parameters and at least one dataset, and [uncertainty_agg]
    was a callable. *)
Theorem recovery_figure post prior (point_agg : aggregator) uncertainty_agg
    names ac ar fig :
  plot_recovery post prior point_agg uncertainty_agg names ac ar = Ok fig ->
  length fig = cols prior /\ (2 <= cols prior)%nat /\ (0 < rows prior)%nat /\
  exists agg est u,
    uncertainty_agg = Some agg /\
    point_agg post = Ok est /\ agg post = Ok u /\
    forall i panel, fig !! i = Some panel ->
      truth panel = {| len := rows prior; at1 := fun r => at2 prior r i |} /\
      estimate panel = {| len := rows est; at1 := fun r => at2 est r i |} /\
      yerr panel = {| len := rows u; at1 := fun r => at2 u r i |} /\
      names_used "p_" names (cols prior) !! i = Some (recovery_title panel).
Proof.
  intros Hfig.
  apply plot_recovery_inv in Hfig
    as (agg & est & u & r & c & -> & Hest & Hu & _ & _ & Hn & Hcells).
  pose proof (Forall2_length _ _ _ Hcells) as Hlen.
  rewrite length_seq in Hlen.
  split; [congruence|]. split; [exact Hn|]. split.
  - destruct (Forall2_lookup_l _ _ _ 0%nat 0%nat Hcells)
      as (panel & _ & Hcell); [apply lookup_seq; lia|].
    apply recovery_cell_inv in Hcell as (_ & Hrows & _). exact Hrows.
  - exists agg, est, u. do 3 (split; [first [reflexivity | assumption]|]).
    intros i panel Hi.
    destruct (Forall2_lookup_r _ _ _ _ _ Hcells Hi) as (k & Hk & Hcell).
    apply lookup_seq in Hk as [-> _]. simpl in Hcell.
    apply recovery_cell_inv in Hcell
      as (_ & _ & Ht & He & Hy & Hname & _).
    repeat split; assumption.
Qed.

Lemma recovery_figure_witness :
  exists fig,
    plot_recovery single_draws (full2 2 3 (Finite 1)) np_mean_axis1
      (Some no_spread) None true true = Ok fig /\
    length fig = 3%nat /\ (2 <= 3)%nat /\ (0 < 2)%nat /\
    exists agg est u,
      Some no_spread = Some agg /\
      np_mean_axis1 single_draws = Ok est /\ agg single_draws = Ok u /\
      forall i panel, fig !! i = Some panel ->
        truth panel
        = {| len := 2; at1 := fun r => at2 (full2 2 3 (Finite 1)) r i |} /\
        estimate panel = {| len := rows est; at1 := fun r => at2 est r i |} /\
        yerr panel = {| len := rows u; at1 := fun r => at2 u r i |} /\
        names_used "p_" None 3 !! i = Some (recovery_title panel).
Proof.
  eexists. split; [reflexivity|].
  apply (recovery_figure single_draws (full2 2 3 (Finite 1)) np_mean_axis1
           (Some no_spread) None true true).
  reflexivity.
Defined.



(** X11. With a single parameter and callable aggregators, [plot_recovery]
    raises an [AttributeError]: for one cell [plt.subplots] returns an
    [Axes] object, not an array, and the loop asks it for [.flat]. *)
Theorem recovery_single_parameter post prior (point_agg agg : aggregator)
    names ac ar est u :
  point_agg post = Ok est -> agg post = Ok u -> cols prior = 1%nat ->
  plot_recovery post prior point_agg (Some agg) names ac ar
  = Raise AttributeError.
Proof.
  intros Hest Hu Hn. unfold plot_recovery.
  rewrite Hest, bind_Ok_l, Hu, bind_Ok_l, Hn. reflexivity.
Qed.

Lemma recovery_single_parameter_witness :
  plot_recovery (full3 3 5 1 (Finite 0)) (full2 3 1 (Finite 1))
    np_mean_axis1 (Some no_spread) None true true = Raise AttributeError.
Proof.
  apply (recovery_single_parameter (full3 3 5 1 (Finite 0))
           (full2 3 1 (Finite 1)) np_mean_axis1 no_spread None true true
           _ _ eq_refl eq_refl eq_refl).
Defined.

(** X12. Arrays without a parameter (or model) axis entry end each of the
    three plotting functions with a [ZeroDivisionError]: the number of rows
    is zero and the number of columns divides by it. In [plot_sbc] and
    [plot_calibration_curves] this happens before anything else is
    computed, in [plot_recovery] after the aggregators have been called. *)
Theorem no_parameters_divide_by_zero :
  (forall post prior (point_agg agg : aggregator) names ac ar est u,
      cols prior = 0%nat -> point_agg post = Ok est -> agg post = Ok u ->
      plot_recovery post prior point_agg (Some agg) names ac ar
      = Raise ZeroDivisionError) /\
  (forall binom_interval post prior names num_bins ci,
      cols prior = 0%nat ->
      plot_sbc binom_interval post prior names num_bins ci
      = Raise ZeroDivisionError) /\
  (forall expected_calibration_error m_true m_pred names n_bins,
      cols m_pred = 0%nat ->
      plot_calibration_curves expected_calibration_error m_true m_pred
        names n_bins = Raise ZeroDivisionError).
Proof.
  split; [|split].
  - intros post prior point_agg agg names ac ar est u Hn Hest Hu.
    unfold plot_recovery.
    rewrite Hest, bind_Ok_l, Hu, bind_Ok_l, Hn. reflexivity.
  - intros binom_interval post prior names num_bins ci Hn.
    unfold plot_sbc. rewrite Hn. reflexivity.
  - intros ece m_true m_pred names n_bins Hn.
    unfold plot_calibration_curves. rewrite Hn. reflexivity.
Qed.

Lemma no_parameters_divide_by_zero_witness :
  plot_sbc binom_interval_exact (full3 3 5 0 (Finite 0))
    (full2 3 0 (Finite 1)) None 10 (95 # 100) = Raise ZeroDivisionError.
Proof.
  apply (proj1 (proj2 no_parameters_divide_by_zero) binom_interval_exact
           (full3 3 5 0 (Finite 0)) (full2 3 0 (Finite 1)) None 10 (95 # 100)).
  reflexivity.
Defined.

(** *** plot_sbc *)

(** With two parameters or more, [ax] is an array of axes or its flat
    iterator, with a cell for each parameter. *)
Lemma grid_axes (n r c : nat) :
  (2 <= n)%nat -> subplot_grid n = Ok (r, c) ->
  exists axarr ax,
    subplots r c = Ok axarr /\
    (if (1 <? r)%nat then flat axarr else Ok axarr) = Ok ax /\
    forall j, (j < n)%nat -> subscript ax j = Ok j.
Proof.
  intros Hn Hg.
  apply subplot_grid_Ok in Hg as (Hr & Hc & _ & Hr0 & Hc0 & Hcover).
  unfold subplots.
  destruct (Nat.eqb_spec r 0); [lia|].
  destruct (Nat.eqb_spec c 0); [lia|]. simpl.
  destruct (Nat.eqb_spec r 1) as [R1|R1].
  - assert (c = n) by (rewrite Hc, R1; apply ceil_div_one).
    destruct (Nat.eqb_spec c 1); [lia|]. simpl.
    destruct (Nat.ltb_spec 1 r); [lia|].
    exists (Array1 c), (Array1 c). repeat split.
    intros j Hj. simpl. destruct (Nat.ltb_spec j c); [reflexivity | lia].
  - simpl. destruct (Nat.ltb_spec 1 r); [|lia].
    destruct (Nat.eqb_spec c 1).
    + exists (Array1 r), (Flat r). repeat split.
      intros j Hj. simpl. destruct (Nat.ltb_spec j r); [reflexivity | nia].
    + exists (Array2 r c), (Flat (r * c)). repeat split.
      intros j Hj. simpl.
      destruct (Nat.ltb_spec j (r * c)); [reflexivity | lia].
Qed.

Lemma true_div_Ok (a b : Z) :
  b <> 0 -> true_div a b = Ok (inject_Z a / inject_Z b)%Q.
Proof.
  intros Hb. unfold true_div. destruct (Z.eqb_spec b 0); [lia | reflexivity].
Qed.

Lemma sbc_cell_inv ax endpoints ranks num_bins names (j : nat) panel :
  sbc_cell ax endpoints ranks num_bins names j = Ok panel ->
  (j < cols ranks)%nat /\ names !! j = Some (sbc_title panel) /\
  band panel = endpoints.
Proof.
  unfold sbc_cell. intros Hcell. open_block. subst panel. simpl.
  match goal with
  | E : column _ _ = Ok _ |- _ => apply column_inv in E as [Hlt _]
  end.
  match goal with
  | E : index names j = Ok _ |- _ =>
      unfold index in E; destruct (names !! j) eqn:Hname; [|discriminate E];
      injection E as <-
  end.
  repeat split; assumption.
Qed.

(** X13. For arrays of the documented shapes with at least one dataset, two
    parameters or more, at least one bin and a confidence strictly between
    0 and 1, [plot_sbc] returns a figure exactly when there are no more
    names than parameters; the figure has one panel per name, titled by it,
    so that with fewer names than parameters the last parameters get no
    panel. *)
Theorem sbc_returns_iff binom_interval post prior names num_bins ci :
  dim0 post = rows prior -> dim2 post = cols prior ->
  (0 < rows prior)%nat -> (2 <= cols prior)%nat ->
  1 <= num_bins -> (0 < ci)%Q /\ (ci < 1)%Q ->
  (returns (plot_sbc binom_interval post prior names num_bins ci)
   <-> (length (names_used "p_" names (cols prior)) <= cols prior)%nat) /\
  forall fig,
    plot_sbc binom_interval post prior names num_bins ci = Ok fig ->
    length fig = length (names_used "p_" names (cols prior)) /\
    forall j panel, fig !! j = Some panel ->
      names_used "p_" names (cols prior) !! j = Some (sbc_title panel).
Proof.
  intros H0 H2 _ Hn Hbins _.
  destruct (subplot_grid_returns (cols prior)) as (r & c & Hg); [lia|].
  destruct (grid_axes _ _ _ Hn Hg) as (axarr & ax & Hsub & Hax & Hsubs).
  destruct (sbc_ranks_spec post prior H0 H2)
    as (ranks & Hranks & _ & Hcols & _).
  assert (Hunfold :
    plot_sbc binom_interval post prior names num_bins ci
    = draw_each
        (sbc_cell ax
           (binom_interval ci (Z.of_nat (rows prior))
              (inject_Z 1 / inject_Z (num_bins + 1))%Q)
           ranks num_bins (names_used "p_" names (cols prior)))
        (seq 0 (length (names_used "p_" names (cols prior))))).
  { unfold plot_sbc, interval_arguments.
    rewrite Hg, bind_Ok_l, Hsub, bind_Ok_l, Hranks, bind_Ok_l.
    rewrite true_div_Ok by lia. rewrite !bind_Ok_l, Hax, bind_Ok_l.
    reflexivity. }
  rewrite Hunfold. split; [split|].
  - intros [fig Hfig]. apply draw_each_Ok in Hfig.
    destruct (Nat.le_gt_cases
                (length (names_used "p_" names (cols prior))) (cols prior))
      as [Hle|Hgt]; [exact Hle|].
    destruct (Forall2_lookup_l _ _ _ (cols prior) (cols prior) Hfig)
      as (panel & _ & Hcell); [apply lookup_seq; lia|].
    apply sbc_cell_inv in Hcell as (Hlt & _). lia.
  - intros Hle. apply draw_each_returns. apply Forall_forall.
    intros j Hj. apply elem_of_seq in Hj.
    unfold sbc_cell. rewrite Hsubs, bind_Ok_l by lia.
    rewrite column_Ok, bind_Ok_l by lia.
    destruct (index_returns (names_used "p_" names (cols prior)) j)
      as [name ->]; [lia|].
    rewrite bind_Ok_l. eexists. reflexivity.
  - intros fig Hfig. apply draw_each_Ok in Hfig.
    pose proof (Forall2_length _ _ _ Hfig) as Hlen.
    rewrite length_seq in Hlen. split; [congruence|].
    intros j panel Hj.
    destruct (Forall2_lookup_r _ _ _ _ _ Hfig Hj) as (k & Hk & Hcell).
    apply lookup_seq in Hk as [-> _]. simpl in Hcell.
    apply sbc_cell_inv in Hcell as (_ & Hname & _). exact Hname.
Qed.

Lemma sbc_returns_iff_witness :
  (returns (plot_sbc binom_interval_exact three_draws (full2 2 2 (Finite 2))
              (Some ["a"]) 10 (95 # 100))
   <-> (length (names_used "p_" (Some ["a"]) 2) <= 2)%nat) /\
  forall fig,
    plot_sbc binom_interval_exact three_draws (full2 2 2 (Finite 2))
      (Some ["a"]) 10 (95 # 100) = Ok fig ->
    length fig = length (names_used "p_" (Some ["a"]) 2) /\
    forall j panel, fig !! j = Some panel ->
      names_used "p_" (Some ["a"]) 2 !! j = Some (sbc_title panel).
Proof.
  apply (sbc_returns_iff binom_interval_exact three_draws
           (full2 2 2 (Finite 2)) (Some ["a"]) 10 (95 # 100));
    first [reflexivity | simpl; lia | split; reflexivity].
Defined.

(** X14. With a single parameter, arrays of the documented shapes, a
    confidence strictly between 0 and 1, a number of bins other than -1 and
    at least one name, [plot_sbc] raises a [TypeError]: for one cell
    [plt.subplots] returns an [Axes] object, which the loop subscripts. *)
Theorem sbc_single_parameter binom_interval post prior names num_bins ci :
  dim0 post = rows prior -> dim2 post = cols prior ->
  cols prior = 1%nat -> num_bins <> -1 -> (0 < ci)%Q /\ (ci < 1)%Q ->
  (0 < length (names_used "p_" names (cols prior)))%nat ->
  plot_sbc binom_interval post prior names num_bins ci = Raise TypeError.
Proof.
  intros H0 H2 Hn Hbins _ Hnames.
  destruct (sbc_ranks_spec post prior H0 H2) as (ranks & Hranks & _).
  unfold plot_sbc, interval_arguments.
  fold (names_used "p_" names (cols prior)).
  rewrite Hn in *.
  assert (Hg : subplot_grid 1 = Ok (1%nat, 1%nat)) by reflexivity.
  assert (Hsub : subplots 1 1 = Ok Single) by reflexivity.
  rewrite Hg, bind_Ok_l, Hsub, bind_Ok_l, Hranks, bind_Ok_l.
  rewrite true_div_Ok by lia. rewrite !bind_Ok_l.
  change (1 <? 1)%nat with false. cbv iota. rewrite bind_Ok_l.
  destruct (length (names_used "p_" names 1)) as [|k] eqn:Hlen; [lia|].
  cbn [seq]. apply (draw_each_raise _ []); [constructor | reflexivity].
Qed.

Lemma sbc_single_parameter_witness :
  plot_sbc binom_interval_exact (full3 4 3 1 (Finite 0)) (full2 4 1 (Finite 1))
    None 10 (95 # 100) = Raise TypeError.
Proof.
  apply (sbc_single_parameter binom_interval_exact (full3 4 3 1 (Finite 0))
           (full2 4 1 (Finite 1)) None 10 (95 # 100));
    first [reflexivity | simpl; lia | split; reflexivity].
Defined.

(** X15. The number of bins that divides by zero is -1, not 0: with at
    least one parameter and arrays of the documented shapes,
    [num_bins = -1] ends [plot_sbc] with a [ZeroDivisionError] on line 180;
    for every other number of bins the success probability handed to
    [binom.interval] is [1 / (num_bins + 1)], which is the whole of 1 for
    [num_bins = 0]. *)
Theorem sbc_degenerate_bins binom_interval post prior names ci :
  dim0 post = rows prior -> dim2 post = cols prior ->
  (1 <= cols prior)%nat ->
  plot_sbc binom_interval post prior names (-1) ci = Raise ZeroDivisionError /\
  (forall num_bins, num_bins <> -1 ->
     interval_arguments ci prior num_bins
     = Ok (ci, Z.of_nat (rows prior),
           (inject_Z 1 / inject_Z (num_bins + 1))%Q)) /\
  interval_arguments ci prior 0 = Ok (ci, Z.of_nat (rows prior), 1%Q).
Proof.
  intros H0 H2 Hn.
  destruct (sbc_ranks_spec post prior H0 H2) as (ranks & Hranks & _).
  split; [|split].
  - destruct (subplot_grid_returns (cols prior)) as (r & c & Hg); [lia|].
    pose proof (subplot_grid_Ok _ _ _ Hg) as (_ & _ & _ & Hr0 & Hc0 & _).
    unfold plot_sbc, interval_arguments.
    rewrite Hg, bind_Ok_l.
    assert (Hsub : exists axarr, subplots r c = Ok axarr).
    { unfold subplots.
      destruct (Nat.eqb_spec r 0); [lia|].
      destruct (Nat.eqb_spec c 0); [lia|]. simpl.
      destruct ((r =? 1)%nat && (c =? 1)%nat); [eauto|].
      destruct (r =? 1)%nat; [eauto|].
      destruct (c =? 1)%nat; eauto. }
    destruct Hsub as [axarr ->].
    rewrite bind_Ok_l, Hranks, bind_Ok_l. reflexivity.
  - intros num_bins Hbins. unfold interval_arguments.
    rewrite true_div_Ok by lia. reflexivity.
  - reflexivity.
Qed.

Lemma sbc_degenerate_bins_witness :
  plot_sbc binom_interval_exact three_draws (full2 2 2 (Finite 2)) None (-1)
    (95 # 100) = Raise ZeroDivisionError.
Proof.
  apply (sbc_degenerate_bins binom_interval_exact three_draws
           (full2 2 2 (Finite 2)) None (95 # 100));
    first [reflexivity | simpl; lia].
Defined.

Lemma broadcast_dim_mismatch (a b : nat) :
  mismatch a b -> broadcast_dim a b = Raise ValueError.
Proof.
  intros (Hab & Ha & Hb). unfold broadcast_dim.
  destruct (Nat.eqb_spec a b); [contradiction|].
  destruct (Nat.eqb_spec a 1); [contradiction|].
  destruct (Nat.eqb_spec b 1); [contradiction|]. reflexivity.
Qed.

Lemma broadcast_dim_cases (a b : nat) :
  mismatch a b \/ exists n, broadcast_dim a b = Ok n.
Proof.
  unfold broadcast_dim, mismatch.
  destruct (Nat.eqb_spec a b); [right; eauto|].
  destruct (Nat.eqb_spec a 1); [right; eauto|].
  destruct (Nat.eqb_spec b 1); [right; eauto|].
  left. auto.
Qed.

(** X16. Sample arrays whose dataset axes or whose parameter axes do not
    broadcast (different lengths, neither of them 1) end [plot_sbc] with
    the [ValueError] of the comparison on line 176, when there is at least
    one parameter in the prior samples. *)
Theorem sbc_shape_mismatch binom_interval post prior names num_bins ci :
  (1 <= cols prior)%nat ->
  mismatch (dim0 post) (rows prior) \/ mismatch (dim2 post) (cols prior) ->
  plot_sbc binom_interval post prior names num_bins ci = Raise ValueError.
Proof.
  intros Hn Hmis.
  destruct (subplot_grid_returns (cols prior)) as (r & c & Hg); [lia|].
  pose proof (subplot_grid_Ok _ _ _ Hg) as (_ & _ & _ & Hr0 & Hc0 & _).
  assert (Hsub : exists axarr, subplots r c = Ok axarr).
  { unfold subplots.
    destruct (Nat.eqb_spec r 0); [lia|].
    destruct (Nat.eqb_spec c 0); [lia|]. simpl.
    destruct ((r =? 1)%nat && (c =? 1)%nat); [eauto|].
    destruct (r =? 1)%nat; [eauto|].
    destruct (c =? 1)%nat; eauto. }
  destruct Hsub as [axarr Hsub].
  assert (Hranks : sbc_ranks post prior = Raise ValueError).
  { unfold sbc_ranks, less_broadcast.
    destruct (broadcast_dim_cases (dim0 post) (rows prior)) as [H0|[n0 H0]].
    - rewrite (broadcast_dim_mismatch _ _ H0). reflexivity.
    - destruct Hmis as [Hbad|Hbad].
      + rewrite (broadcast_dim_mismatch _ _ Hbad) in H0. discriminate.
      + rewrite H0, bind_Ok_l, broadcast_dim_one, bind_Ok_l.
        rewrite (broadcast_dim_mismatch _ _ Hbad). reflexivity. }
  unfold plot_sbc. rewrite Hg, bind_Ok_l, Hsub, bind_Ok_l, Hranks.
  reflexivity.
Qed.

Lemma sbc_shape_mismatch_witness :
  plot_sbc binom_interval_exact (full3 5 3 2 (Finite 0)) (full2 4 2 (Finite 1))
    None 10 (95 # 100) = Raise ValueError.
Proof.
  apply (sbc_shape_mismatch binom_interval_exact (full3 5 3 2 (Finite 0))
           (full2 4 2 (Finite 1)) None 10 (95 # 100)).
  - simpl. lia.
  - left. repeat split; simpl; lia.
Defined.

(** *** plot_calibration_curves *)

(** X17. [plot_calibration_curves] returns a figure for no input at all:
    without a model the grid divides by zero, with one model the single
    [Axes] object is subscripted, and with more the title is set on the
    array of axes. *)
Theorem calibration_curves_never_return
    (expected_calibration_error :
       array2 pyfloat -> array2 pyfloat -> Z ->
       result (list Q * list (list (list Q))))
    (m_true m_pred : array2 pyfloat) (model_names : option (list string))
    (n_bins : Z) :
  ~ returns (plot_calibration_curves expected_calibration_error
               m_true m_pred model_names n_bins).
Proof.
  unfold plot_calibration_curves.
  destruct (cols m_pred) as [|[|k]] eqn:Hn.
  - apply not_returns_Raise.
  - assert (Hg : subplot_grid 1 = Ok (1%nat, 1%nat)) by reflexivity.
    assert (Hsub : subplots 1 1 = Ok Single) by reflexivity.
    rewrite Hg, bind_Ok_l.
    destruct (expected_calibration_error m_true m_pred n_bins)
      as [[cal_errs cal_probs]|e]; [|apply not_returns_Raise].
    rewrite bind_Ok_l, Hsub, bind_Ok_l.
    change (1 <? 1)%nat with false. cbv iota. rewrite bind_Ok_l.
    apply (draw_each_fails _ _ 0%nat); [apply list_elem_of_here|].
    apply not_returns_Raise.
  - destruct (subplot_grid_returns (S (S k))) as (r & c & Hg); [lia|].
    destruct (calibration_axes (S (S k)) r c ltac:(lia) Hg)
      as (axarr & ax & Hsubplots & Hax & Hsub & Htitle).
    rewrite Hg, bind_Ok_l.
    destruct (expected_calibration_error m_true m_pred n_bins)
      as [[cal_errs cal_probs]|e]; [|apply not_returns_Raise].
    rewrite bind_Ok_l, Hsubplots, bind_Ok_l, Hax, bind_Ok_l.
    apply (draw_each_fails _ _ 0%nat); [apply list_elem_of_here|].
    apply calibration_cell_fails. exact Htitle.
Qed.

(** X18. With a single model, when the calibration-error utility returns,
    [plot_calibration_curves] raises a [TypeError] in the first pass
    through the loop: [ax] is the one [Axes] object, and [ax[0]]
    subscripts it. *)
Theorem calibration_single_model
    (expected_calibration_error :
       array2 pyfloat -> array2 pyfloat -> Z ->
       result (list Q * list (list (list Q))))
    (m_true m_pred : array2 pyfloat) (model_names : option (list string))
    (n_bins : Z) out :
  cols m_pred = 1%nat ->
  expected_calibration_error m_true m_pred n_bins = Ok out ->
  plot_calibration_curves expected_calibration_error m_true m_pred
    model_names n_bins = Raise TypeError.
Proof.
  intros Hn Hece. unfold plot_calibration_curves. rewrite Hn.
  assert (Hg : subplot_grid 1 = Ok (1%nat, 1%nat)) by reflexivity.
  assert (Hsub : subplots 1 1 = Ok Single) by reflexivity.
  rewrite Hg, bind_Ok_l, Hece, bind_Ok_l. destruct out as [cal_errs cal_probs].
  rewrite Hsub, bind_Ok_l.
  change (1 <? 1)%nat with false. cbv iota. rewrite bind_Ok_l.
  reflexivity.
Qed.

Lemma calibration_single_model_witness :
  plot_calibration_curves constant_calibration (full2 4 1 (Finite 1))
    (full2 4 1 (Finite 1)) None 10 = Raise TypeError.
Proof.
  apply (calibration_single_model constant_calibration (full2 4 1 (Finite 1))
           (full2 4 1 (Finite 1)) None 10 _ eq_refl eq_refl).
Defined.

(** *** Ranks and names *)

Lemma filter_all {A} (test : A -> bool) (l : list A) :
  length (List.filter test l) = length l <-> forall x, In x l -> test x = true.
Proof.
  induction l as [|x l IH]; simpl.
  - split; [intros _ y [] | reflexivity].
  - pose proof (length_filter_le test l) as Hle.
    destruct (test x) eqn:Hx; simpl.
    + split.
      * intros Hlen y [<-|Hy]; [exact Hx|]. apply IH; [lia | exact Hy].
      * intros Hall. f_equal. apply IH. intros y Hy. apply Hall. auto.
    + split; [lia|]. intros Hall. rewrite Hall in Hx by auto. discriminate.
Qed.

Lemma filter_none {A} (test : A -> bool) (l : list A) :
  (forall x, In x l -> test x = false) -> List.filter test l = [].
Proof.
  induction l as [|x l IH]; simpl; [reflexivity|].
  intros Hall. rewrite (Hall x) by auto. apply IH. intros y Hy. apply Hall. auto.
Qed.

(** X19. The extremes of the rank statistic, for arrays of the documented
    shapes: the rank of a dataset and parameter is the number of draws
    exactly when every draw lies strictly below the prior value, and it is
    zero when the prior value is [nan], which compares below nothing. *)
Theorem sbc_rank_extremes post prior ranks (i j : nat) :
  dim0 post = rows prior -> dim2 post = cols prior ->
  sbc_ranks post prior = Ok ranks ->
  (i < dim0 post)%nat -> (j < dim2 post)%nat ->
  (at2 ranks i j = Z.of_nat (dim1 post) <->
   forall m, (m < dim1 post)%nat ->
     float_ltb (at3 post i m j) (at2 prior i j) = true) /\
  (at2 prior i j = NaN -> at2 ranks i j = 0).
Proof.
  intros H0 H2 Hranks Hi Hj.
  destruct (sbc_ranks_spec post prior H0 H2) as (ranks' & Hranks' & _ & _ & Hat).
  rewrite Hranks in Hranks'. injection Hranks' as <-.
  rewrite (Hat i j Hi Hj). unfold draws_below. split.
  - pose proof (filter_all
                  (fun m => float_ltb (at3 post i m j) (at2 prior i j))
                  (seq 0 (dim1 post))) as Hiff.
    rewrite length_seq in Hiff. rewrite Nat2Z.inj_iff, Hiff. split.
    + intros Hall m Hm. apply Hall. apply in_seq. lia.
    + intros Hall m Hm. apply in_seq in Hm. apply Hall. lia.
  - intros Hnan. rewrite filter_none; [reflexivity|].
    intros m _. rewrite Hnan. destruct (at3 post i m j); reflexivity.
Qed.

Lemma sbc_rank_extremes_witness :
  exists ranks,
    sbc_ranks three_draws (full2 2 2 NaN) = Ok ranks /\
    (at2 ranks 1 0 = Z.of_nat (dim1 three_draws) <->
     forall m, (m < dim1 three_draws)%nat ->
       float_ltb (at3 three_draws 1 m 0) (at2 (full2 2 2 NaN) 1 0) = true) /\
    (at2 (full2 2 2 NaN) 1 0 = NaN -> at2 ranks 1 0 = 0).
Proof.
  eexists. split; [reflexivity|].
  apply (sbc_rank_extremes three_draws (full2 2 2 NaN) _ 1 0);
    first [reflexivity | simpl; lia].
Defined.

(** X20. The default titles: one per parameter, the [i]-th (from zero)
    being the prefix followed by [i + 1] in decimal, so that no two
    parameters share a title. *)
Theorem default_names_numbered (prefix : string) (n : nat) :
  length (default_names prefix n) = n /\
  (forall i, (i < n)%nat ->
     default_names prefix n !! i = Some (prefix +:+ pretty (S i))) /\
  NoDup (default_names prefix n).
Proof.
  split; [apply length_default_names|]. split.
  - intros i Hi. unfold default_names.
    rewrite list_lookup_fmap, lookup_seq_lt by exact Hi. reflexivity.
  - unfold default_names. apply NoDup_fmap_2; [|apply NoDup_seq].
    intros a b Hab. apply String.app_inj in Hab.
    apply pretty_nat_inj in Hab. exact Hab.
Qed.
